(** * iam_cert: reconciliation of IAM server certificates

    A shallow embedding of [lib/ansible/modules/cloud/amazon/iam_cert.py]
    ([cert_meta], [dup_check], [cert_action], [main]) and the properties of
    its present/absent reconciliation flow.

    The module talks to a remote service through the [iam] connection object
    and leaves through [module.exit_json] / [module.fail_json] (both raise
    [SystemExit]) or through an uncaught Python exception.  The embedding
    threads the log of remote calls through a small monad whose outcomes are
    exactly these ways of leaving. *)

From Stdlib Require Import String Ascii List Bool Arith Lia.
Import ListNotations.
Open Scope string_scope.
Open Scope list_scope.

(** ** Python values *)

(** The values that reach a result payload: [None], booleans, strings, the
    list literal [[cert, key]], and the dictionaries of a report. *)
#[warnings="-register-all"]
Inductive value : Type :=
| VNone
| VBool (b : bool)
| VStr (s : string)
| VList (l : list value)
| VDict (d : list (string * value)).

(** Keyword arguments of [exit_json] / [fail_json], in the order written. *)
Definition kwargs := list (string * value).

(** A parameter that is either a string or [None]. *)
Definition pyval (o : option string) : value :=
  match o with
  | None => VNone
  | Some s => VStr s
  end.

(** ['%s' % x] for a string or [None]. *)
Definition pystr (o : option string) : string :=
  match o with
  | None => "None"
  | Some s => s
  end.

(** Truth value of a string or [None] in a condition: [None] and the empty
    string are false. *)
Definition truthy (o : option string) : bool :=
  match o with
  | None => false
  | Some s => negb (String.eqb s "")
  end.

(** [x == y] on strings or [None]. *)
Definition py_eq (x y : option string) : bool :=
  match x, y with
  | None, None => true
  | Some a, Some b => String.eqb a b
  | _, _ => false
  end.

(** [x in l] for a list of strings [l]. *)
Definition py_in (x : option string) (l : list string) : bool :=
  match x with
  | None => false
  | Some s => existsb (String.eqb s) l
  end.

(** [l.index(x)]: position of the first occurrence; [None] stands for the
    [ValueError] Python raises when there is none. *)
Fixpoint index (l : list string) (x : string) : option nat :=
  match l with
  | [] => None
  | y :: l' => if String.eqb y x then Some 0 else option_map S (index l' x)
  end.

(** [s.replace('\r', '')]. *)
Fixpoint replace_cr (s : string) : string :=
  match s with
  | EmptyString => EmptyString
  | String c s' =>
      if Ascii.eqb c "013"%char then replace_cr s' else String c (replace_cr s')
  end.

(** Does the string [s] occur as a value of the payload, at any depth? *)
Fixpoint value_mentions (s : string) (v : value) : bool :=
  match v with
  | VNone => false
  | VBool _ => false
  | VStr t => String.eqb t s
  | VList l =>
      (fix any (l : list value) : bool :=
         match l with
         | [] => false
         | x :: l' => value_mentions s x || any l'
         end) l
  | VDict d =>
      (fix any (d : list (string * value)) : bool :=
         match d with
         | [] => false
         | (_, x) :: d' => value_mentions s x || any d'
         end) d
  end.

Definition payload_mentions (s : string) (kw : kwargs) : bool :=
  existsb (fun kv => value_mentions s (snd kv)) kw.

(** ** The remote service *)

(** What [get_server_certificate(name).get_server_certificate_result] holds. *)
Record server_certificate : Type := mk_server_certificate {
  sc_path : string;
  certificate_body : string;
  server_certificate_id : string;
  sc_upload_date : string;
  sc_expiration : string
}.

(** One call on the [iam] connection. *)
Inductive call : Type :=
| GetAllServerCerts
| GetServerCertificate (name : option string)
| UploadServerCert (name cert key cert_chain : option string) (path : string)
| UpdateServerCert (name new_cert_name new_path : option string)
| DeleteServerCert (name : option string).

(** The three calls that change the remote inventory. *)
Definition mutating (c : call) : bool :=
  match c with
  | GetAllServerCerts => false
  | GetServerCertificate _ => false
  | UploadServerCert _ _ _ _ _ => true
  | UpdateServerCert _ _ _ => true
  | DeleteServerCert _ => true
  end.

(** The log of calls issued so far, oldest first. *)
Definition history := list call.

Definition mutations (h : history) : nat := length (filter mutating h).

(** The connection object.  Every method sees the calls made before it and
    either answers or raises [BotoServerError]; [inl msg] is the error whose
    [str(err)] is [msg].  Nothing is assumed of the service beyond that. *)
Record IAMConnection : Type := mk_iam {
  get_all_server_certs : history -> string + list string;
  get_server_certificate : history -> option string -> string + server_certificate;
  upload_server_cert :
    history -> option string -> option string -> option string ->
    option string -> string -> string + unit;
  update_server_cert :
    history -> option string -> option string -> option string -> string + unit;
  delete_server_cert : history -> option string -> string + unit
}.

(** ** Ways of leaving, and the monad

    [ExitJson] and [FailJson] carry the keyword arguments exactly as the
    module hands them to [module.exit_json] and [module.fail_json]. *)

Inductive exn : Type :=
| BotoServerError (msg : string)
| ValueError
| IndexError
| UnboundLocalError (var : string).

Inductive outcome (A : Type) : Type :=
| Ret (a : A)              (* the statement completed *)
| ExitJson (kw : kwargs)   (* module.exit_json with keywords kw *)
| FailJson (kw : kwargs)   (* module.fail_json with keywords kw *)
| Raise (e : exn).         (* an exception on its way up *)

Arguments Ret {A} a.
Arguments ExitJson {A} kw.
Arguments FailJson {A} kw.
Arguments Raise {A} e.

Definition M (A : Type) : Type := history -> outcome A * history.

Definition ret {A} (a : A) : M A := fun h => (Ret a, h).

Definition bind {A B} (m : M A) (f : A -> M B) : M B :=
  fun h =>
    match m h with
    | (Ret a, h') => f a h'
    | (ExitJson kw, h') => (ExitJson kw, h')
    | (FailJson kw, h') => (FailJson kw, h')
    | (Raise e, h') => (Raise e, h')
    end.

Definition exit_json {A} (kw : kwargs) : M A := fun h => (ExitJson kw, h).
Definition fail_json {A} (kw : kwargs) : M A := fun h => (FailJson kw, h).
Definition raise {A} (e : exn) : M A := fun h => (Raise e, h).

(** Issue the call [c]; [reply] is the method applied to its arguments. *)
Definition remote {A} (c : call) (reply : history -> string + A) : M A :=
  fun h =>
    match reply h with
    | inl msg => (Raise (BotoServerError msg), h ++ [c])
    | inr a => (Ret a, h ++ [c])
    end.

(** [try: m except BotoServerError as err: handler(str(err))]. *)
Definition try_except_boto {A} (m : M A) (handler : string -> M A) : M A :=
  fun h =>
    match m h with
    | (Raise (BotoServerError msg), h') => handler msg h'
    | r => r
    end.

Declare Scope py_scope.
Delimit Scope py_scope with py.
Notation "x <- m ;; k" := (bind m (fun x => k))
  (at level 100, m at next level, right associativity) : py_scope.
Notation "m ;;; k" := (bind m (fun _ => k))
  (at level 100, right associativity) : py_scope.
Open Scope py_scope.

(** ** The module *)

Inductive state : Type := present | absent.

(** [iam.get_server_certificate(name).get_server_certificate_result]. *)
Definition get_server_certificate_result (iam : IAMConnection)
    (name : option string) : M server_certificate :=
  remote (GetServerCertificate name)
         (fun h => get_server_certificate iam h name).

(** [cert_meta]: five separate fetches, one per field. *)
Definition cert_meta (iam : IAMConnection) (name : option string)
    : M (string * string * string * string * string) :=
  r1 <- get_server_certificate_result iam name ;;
  let opath := sc_path r1 in
  r2 <- get_server_certificate_result iam name ;;
  let ocert := certificate_body r2 in
  r3 <- get_server_certificate_result iam name ;;
  let ocert_id := server_certificate_id r3 in
  r4 <- get_server_certificate_result iam name ;;
  let upload_date := sc_upload_date r4 in
  r5 <- get_server_certificate_result iam name ;;
  let exp := sc_expiration r5 in
  ret (opath, ocert, ocert_id, upload_date, exp).

Definition msg_different_body (i_name : string) : string :=
  "A cert with the name " ++ i_name ++ " already exists and"
  ++ " has a different certificate body associated"
  ++ " with it. Certificates cannot have the same name".

Definition msg_already_exists (crt_name : string) : string :=
  "This certificate already" ++ " exists under the name " ++ crt_name.

(** The body of [for i_name in [name, new_name]] in [dup_check].  The result
    is the value of [update] when the loop is left.  [list.index] raises
    [ValueError], which the [except NameError] clause does not catch. *)
Fixpoint dup_check_names (cert : option string)
    (orig_cert_names orig_cert_bodies : list string)
    (i_names : list (option string)) : M bool :=
  match i_names with
  | [] => ret false
  | None :: rest =>
      dup_check_names cert orig_cert_names orig_cert_bodies rest
  | Some i_name :: rest =>
      match cert with
      | Some c =>
          match index orig_cert_names i_name with
          | None => raise ValueError
          | Some c_index =>
              let slug_cert := replace_cr c in
              match nth_error orig_cert_bodies c_index with
              | None => raise IndexError
              | Some body =>
                  let slug_orig_cert_bodies := replace_cr body in
                  if String.eqb slug_orig_cert_bodies slug_cert
                  then ret true
                  else fail_json
                         [("changed", VBool false);
                          ("msg", VStr (msg_different_body i_name))]
              end
          end
      | None => ret true
      end
  end.

(** The body of [for crt_name, crt_body in zip(names, bodies)]. *)
Fixpoint dup_check_bodies (cert : string)
    (pairs : list (string * string)) : M bool :=
  match pairs with
  | [] => ret false
  | (crt_name, crt_body) :: rest =>
      if String.eqb crt_body cert
      then fail_json
             [("changed", VBool false);
              ("msg", VStr (msg_already_exists crt_name))]
      else dup_check_bodies cert rest
  end.

Definition dup_check (iam : IAMConnection) (name new_name cert : option string)
    (orig_cert_names orig_cert_bodies : list string) (dup_ok : bool) : M bool :=
  if py_in name orig_cert_names || py_in new_name orig_cert_names
  then dup_check_names cert orig_cert_names orig_cert_bodies [name; new_name]
  else if py_in cert orig_cert_bodies && negb dup_ok
  then
    match cert with
    | Some c => dup_check_bodies c (combine orig_cert_names orig_cert_bodies)
    | None => ret false
    end
  else ret false.

Definition cert_action (iam : IAMConnection) (name : option string)
    (cpath : string) (new_name new_path : option string) (st : state)
    (cert key chain : option string)
    (orig_cert_names orig_cert_bodies : list string) (dup_ok : bool) : M unit :=
  match st with
  | present =>
      update <- dup_check iam name new_name cert orig_cert_names
                          orig_cert_bodies dup_ok ;;
      if update then
        meta <- cert_meta iam name ;;
        let '(opath, ocert, ocert_id, upload_date, exp) := meta in
        if truthy new_name && truthy new_path then
          remote (UpdateServerCert name new_name new_path)
                 (fun h => update_server_cert iam h name new_name new_path) ;;;
          exit_json [("changed", VBool true); ("original_name", pyval name);
                     ("new_name", pyval new_name);
                     ("original_path", VStr opath); ("new_path", pyval new_path);
                     ("cert_body", VStr ocert); ("upload_date", VStr upload_date);
                     ("expiration_date", VStr exp)]
        else if truthy new_name && negb (truthy new_path) then
          remote (UpdateServerCert name new_name None)
                 (fun h => update_server_cert iam h name new_name None) ;;;
          exit_json [("changed", VBool true); ("original_name", pyval name);
                     ("new_name", pyval new_name);
                     ("cert_path", VStr opath); ("cert_body", VStr ocert);
                     ("upload_date", VStr upload_date);
                     ("expiration_date", VStr exp)]
        else if negb (truthy new_name) && truthy new_path then
          remote (UpdateServerCert name None new_path)
                 (fun h => update_server_cert iam h name None new_path) ;;;
          exit_json [("changed", VBool true); ("name", pyval new_name);
                     ("original_path", VStr opath); ("new_path", pyval new_path);
                     ("cert_body", VStr ocert); ("upload_date", VStr upload_date);
                     ("expiration_date", VStr exp)]
        else
          exit_json [("changed", VBool false); ("name", pyval name);
                     ("cert_path", VStr opath); ("cert_body", VStr ocert);
                     ("upload_date", VStr upload_date);
                     ("expiration_date", VStr exp);
                     ("msg", VStr "No new path or name specified. No changes made")]
      else
        remote (UploadServerCert name cert key chain cpath)
               (fun h => upload_server_cert iam h name cert key chain cpath) ;;;
        meta <- cert_meta iam name ;;
        let '(opath, ocert, ocert_id, upload_date, exp) := meta in
        exit_json [("changed", VBool true); ("name", pyval name);
                   ("cert_path", VStr opath); ("cert_body", VStr ocert);
                   ("upload_date", VStr upload_date);
                   ("expiration_date", VStr exp)]
  | absent =>
      if py_in name orig_cert_names then
        remote (DeleteServerCert name)
               (fun h => delete_server_cert iam h name) ;;;
        exit_json [("changed", VBool true); ("deleted_cert", pyval name)]
      else
        exit_json [("changed", VBool false);
                   ("msg", VStr ("Certificate with the name " ++ pystr name
                                 ++ " already absent"))]
  end.

(** [module.params] after argument parsing: [state] is required and one of
    its two choices, [path] defaults to ["/"], [dup_ok] to [False], every
    other parameter to [None]. *)
Record params : Type := mk_params {
  p_state : state;
  p_name : option string;
  p_cert : option string;
  p_key : option string;
  p_cert_chain : option string;
  p_new_name : option string;
  p_path : string;
  p_new_path : option string;
  p_dup_ok : bool
}.

(** What [main] finds around it: whether [import boto] worked, and what
    connecting gives, either [NoAuthHandlerFound] (with its [str]) or the
    connection. *)
Record environment : Type := mk_environment {
  HAS_BOTO : bool;
  connect_to_aws : string + IAMConnection
}.

(** A local variable of [main]: [None] while it has not been assigned. *)
Definition local := option (option string).

(** Reading a local variable. *)
Definition load (var : string) (l : local) : M (option string) :=
  match l with
  | Some v => ret v
  | None => raise (UnboundLocalError var)
  end.

(** [[f(thing) for thing in things]]. *)
Fixpoint comprehension {A B} (f : A -> M B) (things : list A) : M (list B) :=
  match things with
  | [] => ret []
  | thing :: rest =>
      b <- f thing ;;
      bs <- comprehension f rest ;;
      ret (b :: bs)
  end.

(** [iam.get_server_certificate(thing).get_server_certificate_result.certificate_body]. *)
Definition certificate_body_of (iam : IAMConnection) (thing : string) : M string :=
  r <- get_server_certificate_result iam (Some thing) ;;
  ret (certificate_body r).

Definition main (env : environment) (p : params) : M unit :=
  (if negb (HAS_BOTO env)
   then fail_json [("msg", VStr "Boto is required for this module")]
   else ret tt) ;;;
  iam <- match connect_to_aws env with
         | inr iam => ret iam
         | inl msg => fail_json [("msg", VStr msg)]
         end ;;
  let st := p_state p in
  let name := p_name p in
  let path := p_path p in
  let new_name := p_new_name p in
  let new_path := p_new_path p in
  let cert_chain := p_cert_chain p in
  let dup_ok := p_dup_ok p in
  let cert : local :=
    match st with
    | present => option_map Some (p_cert p)
    | absent => Some None
    end in
  let key : local :=
    match st with
    | present => option_map Some (p_key p)
    | absent => Some None
    end in
  orig_certs <- remote GetAllServerCerts (get_all_server_certs iam) ;;
  orig_bodies <- comprehension (certificate_body_of iam) orig_certs ;;
  let new_name := if py_eq new_name name then None else new_name in
  let new_path := if py_eq new_path (Some path) then None else new_path in
  let changed := false in
  try_except_boto
    (c <- load "cert" cert ;;
     k <- load "key" key ;;
     cert_action iam name path new_name new_path st c k cert_chain
                 orig_certs orig_bodies dup_ok)
    (fun msg =>
       c <- load "cert" cert ;;
       k <- load "key" key ;;
       fail_json [("changed", VBool changed); ("msg", VStr msg);
                  ("debug", VList [pyval c; pyval k])]).

(** ** Inventories

    [main] builds [orig_certs] and [orig_bodies] side by side from one
    listing, so the two lists are the two projections of a list of
    (name, body) pairs. *)

Definition inventory := list (string * string).

Definition names_of (I : inventory) : list string := map fst I.
Definition bodies_of (I : inventory) : list string := map snd I.

(** The body stored under a name: that of the first entry so named. *)
Fixpoint stored_body (I : inventory) (n : string) : option string :=
  match I with
  | [] => None
  | (n', b) :: I' => if String.eqb n' n then Some b else stored_body I' n
  end.

(** The name of the first entry whose body is exactly [b]. *)
Fixpoint name_of_body (I : inventory) (b : string) : option string :=
  match I with
  | [] => None
  | (n, b') :: I' => if String.eqb b' b then Some n else name_of_body I' b
  end.

(** The inventory once every entry named [n] is gone. *)
Definition without_name (n : string) (I : inventory) : inventory :=
  filter (fun e => negb (String.eqb (fst e) n)) I.

(** ** A simulated service

    A stand-in for the remote service, used to run the module on concrete
    inputs: it keeps (name, certificate) entries, answers reads from the
    entries as left by the calls made so far, and accepts a write only when
    [writable] and the call makes sense for the entries. *)

Definition entries := list (string * server_certificate).

Fixpoint find_entry (s : entries) (n : string) : option server_certificate :=
  match s with
  | [] => None
  | (n', r) :: s' => if String.eqb n' n then Some r else find_entry s' n
  end.

Definition has_entry (s : entries) (n : string) : bool :=
  match find_entry s n with Some _ => true | None => false end.

Definition new_certificate (path body : string) : server_certificate :=
  mk_server_certificate path body "ASCAEXAMPLE" "2017-01-01T00:00:00Z"
                        "2027-01-01T00:00:00Z".

Definition moved (new_path : option string) (r : server_certificate)
    : server_certificate :=
  match new_path with
  | None => r
  | Some np =>
      mk_server_certificate np (certificate_body r) (server_certificate_id r)
                            (sc_upload_date r) (sc_expiration r)
  end.

Definition accepts (s : entries) (c : call) : bool :=
  match c with
  | UploadServerCert (Some n) (Some _) (Some _) _ _ => negb (has_entry s n)
  | UpdateServerCert (Some n) new_name _ =>
      has_entry s n &&
      match new_name with
      | Some nn => negb (has_entry s nn)
      | None => true
      end
  | DeleteServerCert (Some n) => has_entry s n
  | _ => false
  end.

Definition apply_call (s : entries) (c : call) : entries :=
  if accepts s c then
    match c with
    | UploadServerCert (Some n) (Some body) _ _ path =>
        s ++ [(n, new_certificate path body)]
    | UpdateServerCert (Some n) new_name new_path =>
        map (fun e =>
               if String.eqb (fst e) n
               then (match new_name with Some nn => nn | None => n end,
                     moved new_path (snd e))
               else e) s
    | DeleteServerCert (Some n) =>
        filter (fun e => negb (String.eqb (fst e) n)) s
    | _ => s
    end
  else s.

Definition entries_after (init : entries) (h : history) : entries :=
  fold_left apply_call h init.

Definition write_reply (writable : bool) (s : entries) (c : call)
    : string + unit :=
  if negb writable then inl "AccessDenied"
  else if accepts s c then inr tt
  else inl "InvalidInput".

Definition simulated (writable : bool) (init : entries) : IAMConnection :=
  {| get_all_server_certs := fun h => inr (map fst (entries_after init h));
     get_server_certificate := fun h name =>
       match name with
       | Some n =>
           match find_entry (entries_after init h) n with
           | Some r => inr r
           | None => inl "NoSuchEntity"
           end
       | None => inl "ValidationError"
       end;
     upload_server_cert := fun h name cert key chain path =>
       write_reply writable (entries_after init h)
                   (UploadServerCert name cert key chain path);
     update_server_cert := fun h name new_name new_path =>
       write_reply writable (entries_after init h)
                   (UpdateServerCert name new_name new_path);
     delete_server_cert := fun h name =>
       write_reply writable (entries_after init h) (DeleteServerCert name) |}.

(** A service that accepts every write and refuses every fetch of a
    certificate; [listing] is what it answers to the listing. *)
Definition unreadable (listing : string + list string) : IAMConnection :=
  {| get_all_server_certs := fun _ => listing;
     get_server_certificate := fun _ _ => inl "ServiceFailure";
     upload_server_cert := fun _ _ _ _ _ _ => inr tt;
     update_server_cert := fun _ _ _ _ => inr tt;
     delete_server_cert := fun _ _ => inr tt |}.

(** ** What a run adds to the log *)

(** The listing and the certificate fetch. *)
Definition read_only (c : call) : bool :=
  match c with
  | GetAllServerCerts => true
  | GetServerCertificate _ => true
  | _ => false
  end.

(** From any log, [m] only appends calls, at most [n] of them mutating. *)
Definition at_most (n : nat) {A} (m : M A) : Prop :=
  forall h, exists calls,
    snd (m h) = h ++ calls /\ length (filter mutating calls) <= n.

(** [m] never leaves through [exit_json] or [fail_json]. *)
Definition stays {A} (m : M A) : Prop :=
  forall h, match fst (m h) with
            | Ret _ => True
            | Raise _ => True
            | ExitJson _ => False
            | FailJson _ => False
            end.

(** [m] never ends in the exception [e]. *)
Definition never_raises (e : exn) {A} (m : M A) : Prop :=
  forall h, fst (m h) <> Raise e.

(** [m] never completes normally: it always leaves through [exit_json],
    [fail_json] or an exception. *)
Definition never_returns {A} (m : M A) : Prop :=
  forall h a, fst (m h) <> Ret a.

(** Lookup of a keyword in a payload. *)
Fixpoint kw_get (k : string) (kw : kwargs) : option value :=
  match kw with
  | [] => None
  | (k', v) :: kw' => if String.eqb k' k then Some v else kw_get k kw'
  end.

(** The parameters with another [new_name], or another [new_path]. *)
Definition set_new_name (v : option string) (p : params) : params :=
  mk_params (p_state p) (p_name p) (p_cert p) (p_key p) (p_cert_chain p) v
            (p_path p) (p_new_path p) (p_dup_ok p).

Definition set_new_path (v : option string) (p : params) : params :=
  mk_params (p_state p) (p_name p) (p_cert p) (p_key p) (p_cert_chain p)
            (p_new_name p) (p_path p) v (p_dup_ok p).

(** The fetch of one listed certificate, as logged. *)
Definition fetch_of (thing : string) : call := GetServerCertificate (Some thing).

(** ** The report

    [fail_json] above carries the keyword arguments as [main] hands them
    over.  What the caller of the module is shown is made from them by
    [AnsibleModule], outside this file. *)






(** The certificate fetched by [cert_meta] after [j] earlier fetches. *)
Definition nth_fetch (iam : IAMConnection) (name : option string)
    (h : history) (j : nat) : string + server_certificate :=
  get_server_certificate iam (h ++ repeat (GetServerCertificate name) j) name.


(** ** Runs on concrete inputs *)

Definition alpha_entries : entries :=
  [("alpha", mk_server_certificate "/" "BODY1" "ASCA1" "2016-05-01T00:00:00Z"
                                   "2026-05-01T00:00:00Z")].

Definition beta_entries : entries :=
  [("beta", mk_server_certificate "/" "B" "ASCA2" "2016-06-01T00:00:00Z"
                                  "2026-06-01T00:00:00Z")].

(** Carriage return and line feed. *)
Definition CR : string := String "013"%char EmptyString.
Definition LF : string := String "010"%char EmptyString.

(** Two lines, stored with CR LF line ends and supplied with LF line ends. *)
Definition body_crlf : string := "LINE1" ++ CR ++ LF ++ "LINE2" ++ CR ++ LF.
Definition body_lf : string := "LINE1" ++ LF ++ "LINE2" ++ LF.

Definition crlf_entries : entries :=
  [("alpha", mk_server_certificate "/" body_crlf "ASCA1" "2016-05-01T00:00:00Z"
                                   "2026-05-01T00:00:00Z")].

(** Scenario: nothing stored, [cert1] is uploaded. *)
Example run_create :
  main (mk_environment true (inr (simulated true [])))
       (mk_params present (Some "cert1") (Some "X") (Some "K") None None "/"
                  None false) []
  = (ExitJson [("changed", VBool true); ("name", VStr "cert1");
               ("cert_path", VStr "/"); ("cert_body", VStr "X");
               ("upload_date", VStr "2017-01-01T00:00:00Z");
               ("expiration_date", VStr "2027-01-01T00:00:00Z")],
     [GetAllServerCerts;
      UploadServerCert (Some "cert1") (Some "X") (Some "K") None "/";
      GetServerCertificate (Some "cert1"); GetServerCertificate (Some "cert1");
      GetServerCertificate (Some "cert1"); GetServerCertificate (Some "cert1");
      GetServerCertificate (Some "cert1")]).
Proof. reflexivity. Qed.

(** Scenario: [alpha] is renamed to [beta] and moved to [/new/]. *)
Example run_rename_move :
  fst (main (mk_environment true (inr (simulated true alpha_entries)))
            (mk_params present (Some "alpha") (Some "BODY1") (Some "K") None
                       (Some "beta") "/" (Some "/new/") false) [])
  = ExitJson [("changed", VBool true); ("original_name", VStr "alpha");
              ("new_name", VStr "beta"); ("original_path", VStr "/");
              ("new_path", VStr "/new/"); ("cert_body", VStr "BODY1");
              ("upload_date", VStr "2016-05-01T00:00:00Z");
              ("expiration_date", VStr "2026-05-01T00:00:00Z")].
Proof. reflexivity. Qed.

(** Scenario: [alpha] is deleted; the same request run again on the same
    service finds it gone. *)
Example run_delete_twice :
  let env := mk_environment true (inr (simulated true alpha_entries)) in
  let p := mk_params absent (Some "alpha") None None None None "/" None false in
  let first := main env p [] in
  fst first = ExitJson [("changed", VBool true); ("deleted_cert", VStr "alpha")]
  /\ fst (main env p (snd first))
     = ExitJson [("changed", VBool false);
                 ("msg", VStr "Certificate with the name alpha already absent")].
Proof. split; reflexivity. Qed.

(** With no name, the new name is the one looked up: its stored body is
    compared with the supplied one. *)
Example run_dup_check_new_name :
  dup_check (simulated true beta_entries) None (Some "beta") (Some "X")
            ["beta"] ["B"] false []
  = (FailJson [("changed", VBool false); ("msg", VStr (msg_different_body "beta"))],
     [])
  /\ dup_check (simulated true beta_entries) None (Some "beta") (Some "B")
               ["beta"] ["B"] false []
     = (Ret true, []).
Proof. split; reflexivity. Qed.

Example replace_cr_crlf : replace_cr body_crlf = body_lf.
Proof. reflexivity. Qed.

Example CR_code : CR = String (ascii_of_nat 13) EmptyString.
Proof. reflexivity. Qed.

(** ** Facts about the list operations *)

Lemma py_in_spec (s : string) (l : list string) :
  py_in (Some s) l = true <-> In s l.
Proof.
  simpl. rewrite existsb_exists. split.
  - intros [x [Hx He]]. apply String.eqb_eq in He. now subst.
  - intros H. exists s. split; [assumption | apply String.eqb_refl].
Qed.

Lemma py_in_false (s : string) (l : list string) :
  py_in (Some s) l = false <-> ~ In s l.
Proof.
  rewrite <- py_in_spec. destruct (py_in (Some s) l); split; congruence.
Qed.

Lemma index_absent (l : list string) (x : string) :
  py_in (Some x) l = false -> index l x = None.
Proof.
  induction l as [|y l IH]; simpl; [reflexivity|].
  rewrite (String.eqb_sym x y).
  destruct (String.eqb y x); simpl; [discriminate|].
  intros H. simpl in IH. now rewrite (IH H).
Qed.

Lemma stored_body_index (I : inventory) (n b : string) :
  stored_body I n = Some b ->
  exists i, index (names_of I) n = Some i /\ nth_error (bodies_of I) i = Some b.
Proof.
  induction I as [|[n' b'] I IH]; simpl; [discriminate|].
  destruct (String.eqb n' n).
  - intros [= ->]. exists 0. split; reflexivity.
  - intros H. destruct (IH H) as [i [Hi Hn]].
    exists (S i). rewrite Hi. split; [reflexivity | exact Hn].
Qed.

Lemma stored_body_in (I : inventory) (n b : string) :
  stored_body I n = Some b -> py_in (Some n) (names_of I) = true.
Proof.
  intros H. apply py_in_spec.
  induction I as [|[n' b'] I IH]; simpl in *; [discriminate|].
  destruct (String.eqb n' n) eqn:E.
  - left. now apply String.eqb_eq.
  - right. now apply IH.
Qed.

Lemma in_names_stored (I : inventory) (n : string) :
  In n (names_of I) -> exists b, stored_body I n = Some b.
Proof.
  induction I as [|[n' b'] I IH]; simpl; [contradiction|].
  intros H. destruct (String.eqb n' n) eqn:E.
  - now exists b'.
  - destruct H as [H|H]; [|now apply IH].
    subst. rewrite String.eqb_refl in E. discriminate.
Qed.

Lemma without_name_absent (n : string) (I : inventory) :
  ~ In n (names_of (without_name n I)).
Proof.
  unfold names_of, without_name. rewrite in_map_iff.
  intros [[n' b] [Hn Hin]]. simpl in Hn. subst n'.
  apply filter_In in Hin. destruct Hin as [_ Hf]. simpl in Hf.
  rewrite String.eqb_refl in Hf. discriminate.
Qed.

Lemma mutations_app (h1 h2 : history) :
  filter mutating (h1 ++ h2) = filter mutating h1 ++ filter mutating h2.
Proof. apply filter_app. Qed.

(** ** Duplicate and update detection *)

(** [dup_check] makes no remote call. *)
Lemma dup_check_names_silent cert names bodies l h :
  snd (dup_check_names cert names bodies l h) = h.
Proof.
  induction l as [|[i_name|] l IH]; simpl; [reflexivity| |exact IH].
  destruct cert as [c|]; [|reflexivity].
  destruct (index names i_name) as [i|]; [|reflexivity].
  destruct (nth_error bodies i) as [b|]; [|reflexivity].
  destruct (String.eqb (replace_cr b) (replace_cr c)); reflexivity.
Qed.

Lemma dup_check_bodies_silent c pairs h :
  snd (dup_check_bodies c pairs h) = h.
Proof.
  induction pairs as [|[n b] pairs IH]; simpl; [reflexivity|].
  destruct (String.eqb b c); [reflexivity | exact IH].
Qed.

Lemma dup_check_silent iam name new_name cert names bodies dup_ok h :
  snd (dup_check iam name new_name cert names bodies dup_ok h) = h.
Proof.
  unfold dup_check.
  destruct (py_in name names || py_in new_name names).
  - apply dup_check_names_silent.
  - destruct (py_in cert bodies && negb dup_ok); [|reflexivity].
    destruct cert; [apply dup_check_bodies_silent | reflexivity].
Qed.

(** A name of the inventory whose stored body is the supplied one, up to
    carriage returns: this is an update. *)
Lemma dup_check_same_body iam I n b c new_name dup_ok h :
  stored_body I n = Some b ->
  replace_cr b = replace_cr c ->
  dup_check iam (Some n) new_name (Some c) (names_of I) (bodies_of I) dup_ok h
  = (Ret true, h).
Proof.
  intros Hs Hb. unfold dup_check.
  rewrite (stored_body_in _ _ _ Hs). simpl orb. cbv iota.
  destruct (stored_body_index _ _ _ Hs) as [i [Hi Hn]].
  simpl. rewrite Hi, Hn, Hb, String.eqb_refl. reflexivity.
Qed.

(** The same name with another body: the conflict is reported. *)
Lemma dup_check_other_body iam I n b c new_name dup_ok h :
  stored_body I n = Some b ->
  replace_cr b <> replace_cr c ->
  dup_check iam (Some n) new_name (Some c) (names_of I) (bodies_of I) dup_ok h
  = (FailJson [("changed", VBool false); ("msg", VStr (msg_different_body n))],
     h).
Proof.
  intros Hs Hb. unfold dup_check.
  rewrite (stored_body_in _ _ _ Hs). simpl orb. cbv iota.
  destruct (stored_body_index _ _ _ Hs) as [i [Hi Hn]].
  simpl. rewrite Hi, Hn.
  apply String.eqb_neq in Hb. rewrite Hb. reflexivity.
Qed.

(** The metadata fetch only reads. *)
Lemma cert_meta_reads iam name h :
  filter mutating (snd (cert_meta iam name h)) = filter mutating h.
Proof.
  unfold cert_meta, get_server_certificate_result, bind, remote.
  repeat (match goal with
          | |- context [get_server_certificate iam ?x name] =>
              destruct (get_server_certificate iam x name)
          end; simpl;
          rewrite ?mutations_app; simpl; rewrite ?app_nil_r; try reflexivity).
Qed.

Lemma combine_names_bodies (I : inventory) :
  combine (names_of I) (bodies_of I) = I.
Proof.
  unfold names_of, bodies_of.
  induction I as [|[n b] I IH]; simpl; [reflexivity | now rewrite IH].
Qed.

Lemma name_of_body_found (I : inventory) (c : string) :
  In c (bodies_of I) ->
  exists clash, name_of_body I c = Some clash /\ In (clash, c) I.
Proof.
  induction I as [|[n b] I IH]; simpl; [contradiction|].
  intros H. destruct (String.eqb b c) eqn:E.
  - apply String.eqb_eq in E. subst. exists n. split; [reflexivity | now left].
  - destruct H as [H|H].
    + subst. rewrite String.eqb_refl in E. discriminate.
    + destruct (IH H) as [clash [Hc Hin]]. exists clash. split; [exact Hc | now right].
Qed.

Lemma dup_check_bodies_clash (I : inventory) (c clash : string) h :
  name_of_body I c = Some clash ->
  dup_check_bodies c I h
  = (FailJson [("changed", VBool false); ("msg", VStr (msg_already_exists clash))],
     h).
Proof.
  induction I as [|[n b] I IH]; simpl; [discriminate|].
  destruct (String.eqb b c); [now intros [= ->] | exact IH].
Qed.

(** ** Reconciliation, [state = present] *)

(** C2.  When the name is in the inventory, its stored body equals the
    supplied body once carriage returns are removed from both, and neither a
    new name nor a new path is set, the run issues no mutating call, and as
    soon as the service answers the metadata fetch it exits with
    [changed=False] and the message that nothing was changed. *)
Theorem present_same_body_unchanged
    iam (I : inventory) (n b c cpath : string) (key chain : option string)
    (dup_ok : bool) (h : history) :
  stored_body I n = Some b ->
  replace_cr b = replace_cr c ->
  let run := cert_action iam (Some n) cpath None None present (Some c) key chain
                         (names_of I) (bodies_of I) dup_ok h in
  filter mutating (snd run) = filter mutating h
  /\ forall opath ocert ocert_id upload_date exp h',
       cert_meta iam (Some n) h
       = (Ret (opath, ocert, ocert_id, upload_date, exp), h') ->
       run = (ExitJson
                [("changed", VBool false); ("name", VStr n);
                 ("cert_path", VStr opath); ("cert_body", VStr ocert);
                 ("upload_date", VStr upload_date);
                 ("expiration_date", VStr exp);
                 ("msg", VStr "No new path or name specified. No changes made")],
              h').
Proof.
  intros Hs Hb run. subst run. unfold cert_action, bind.
  rewrite (dup_check_same_body iam I n b c None dup_ok h Hs Hb).
  split.
  - rewrite <- (cert_meta_reads iam (Some n) h).
    destruct (cert_meta iam (Some n) h) as [[[[[[opath ocert] oid] ud] ex]| | |] h'];
      reflexivity.
  - intros opath ocert ocert_id upload_date exp h' Hm. rewrite Hm. reflexivity.
Qed.

(** C3.  When the name is in the inventory and its stored body differs from
    the supplied body (carriage returns removed from both), the run fails
    with the message that names the certificate, and no remote call at all
    is issued: the log of calls is unchanged. *)
Theorem present_other_body_conflict
    iam (I : inventory) (n b c cpath : string)
    (new_name new_path key chain : option string) (dup_ok : bool) (h : history) :
  stored_body I n = Some b ->
  replace_cr b <> replace_cr c ->
  cert_action iam (Some n) cpath new_name new_path present (Some c) key chain
              (names_of I) (bodies_of I) dup_ok h
  = (FailJson [("changed", VBool false); ("msg", VStr (msg_different_body n))],
     h).
Proof.
  intros Hs Hb. unfold cert_action, bind.
  rewrite (dup_check_other_body iam I n b c new_name dup_ok h Hs Hb).
  reflexivity.
Qed.

(** Neither name is in the inventory and the body is new: no update. *)
Lemma dup_check_fresh iam name new_name cert names bodies dup_ok h :
  py_in name names = false ->
  py_in new_name names = false ->
  py_in cert bodies = false ->
  dup_check iam name new_name cert names bodies dup_ok h = (Ret false, h).
Proof.
  intros H1 H2 H3. unfold dup_check. rewrite H1, H2, H3. reflexivity.
Qed.

(** C4, amended.  When neither the name nor the new name (if any) is among
    the inventory's names and the body is not among its bodies, exactly one
    mutating call is issued, the upload of name, body, key, chain and path;
    and when the service accepts it and answers the metadata fetch, the run
    exits with [changed=True] and the fetched path, body and dates. *)
Theorem present_new_certificate_created
    iam (I : inventory) (name new_name new_path cert key chain : option string)
    (cpath : string) (dup_ok : bool) (h : history) :
  py_in name (names_of I) = false ->
  py_in new_name (names_of I) = false ->
  py_in cert (bodies_of I) = false ->
  let upload := UploadServerCert name cert key chain cpath in
  let run := cert_action iam name cpath new_name new_path present cert key chain
                         (names_of I) (bodies_of I) dup_ok h in
  filter mutating (snd run) = filter mutating h ++ [upload]
  /\ forall opath ocert ocert_id upload_date exp h',
       upload_server_cert iam h name cert key chain cpath = inr tt ->
       cert_meta iam name (h ++ [upload])
       = (Ret (opath, ocert, ocert_id, upload_date, exp), h') ->
       run = (ExitJson
                [("changed", VBool true); ("name", pyval name);
                 ("cert_path", VStr opath); ("cert_body", VStr ocert);
                 ("upload_date", VStr upload_date);
                 ("expiration_date", VStr exp)],
              h').
Proof.
  intros H1 H2 H3 upload run. subst run. unfold cert_action, bind.
  rewrite (dup_check_fresh iam name new_name cert _ _ dup_ok h H1 H2 H3).
  unfold remote. fold upload.
  destruct (upload_server_cert iam h name cert key chain cpath) as [msg|[]].
  - split; [|discriminate]. simpl. rewrite mutations_app. reflexivity.
  - split.
    + rewrite <- (app_nil_r (filter mutating h ++ [upload])).
      change ([upload]) with (filter mutating [upload]) at 2.
      rewrite <- mutations_app, <- (cert_meta_reads iam name (h ++ [upload])).
      rewrite app_nil_r.
      destruct (cert_meta iam name (h ++ [upload]))
        as [[[[[[opath ocert] oid] ud] ex]| | |] h']; reflexivity.
    + intros opath ocert ocert_id upload_date exp h' _ Hm. rewrite Hm. reflexivity.
Qed.

(** C5, amended.  When neither the name nor the new name (if any) is among
    the inventory's names, the body is exactly the body of an existing
    certificate and [dup_ok] is false, the run fails with the message that
    names the first certificate holding that body, and no remote call is
    issued. *)
Theorem present_duplicate_body_rejected
    iam (I : inventory) (name new_name new_path key chain : option string)
    (c cpath : string) (h : history) :
  py_in name (names_of I) = false ->
  py_in new_name (names_of I) = false ->
  In c (bodies_of I) ->
  exists clash,
    name_of_body I c = Some clash /\ In (clash, c) I /\ name <> Some clash
    /\ cert_action iam name cpath new_name new_path present (Some c) key chain
                   (names_of I) (bodies_of I) false h
       = (FailJson [("changed", VBool false);
                    ("msg", VStr (msg_already_exists clash))], h).
Proof.
  intros H1 H2 Hc.
  destruct (name_of_body_found I c Hc) as [clash [Hn Hin]].
  exists clash. repeat split; try assumption.
  - intros ->. apply py_in_false in H1. apply H1.
    unfold names_of. apply (in_map fst) in Hin. exact Hin.
  - assert (Hd : dup_check iam name new_name (Some c) (names_of I) (bodies_of I)
                            false h
                  = (FailJson [("changed", VBool false);
                               ("msg", VStr (msg_already_exists clash))], h)).
    { unfold dup_check. rewrite H1, H2.
      apply py_in_spec in Hc. rewrite Hc. cbn [orb andb negb].
      rewrite combine_names_bodies. exact (dup_check_bodies_clash I c clash h Hn). }
    unfold cert_action, bind. rewrite Hd. reflexivity.
Qed.

(** C6.  With a body supplied, a name that is not in the inventory and a new
    name that is: the lookup of the name raises [ValueError], which nothing
    catches; the new name is never looked at. *)
Theorem dup_check_new_name_only_raises
    iam (n nn c : string) (names bodies : list string) (dup_ok : bool)
    (h : history) :
  py_in (Some n) names = false ->
  py_in (Some nn) names = true ->
  dup_check iam (Some n) (Some nn) (Some c) names bodies dup_ok h
  = (Raise ValueError, h).
Proof.
  intros H1 H2. unfold dup_check. rewrite H1, H2. simpl orb. cbv iota.
  simpl. rewrite (index_absent names n H1). reflexivity.
Qed.

(** C7.  On an update with both a new name and a new path given (non-empty),
    once the service answers the metadata fetch and accepts the call, the
    run issues the one rename-and-move call and exits with [changed=True],
    the original and new name, the original and new path, and the body and
    dates as fetched. *)
Theorem present_rename_and_move
    iam (name cert key chain : option string) (nn np cpath : string)
    (names bodies : list string) (dup_ok : bool) (h : history) :
  fst (dup_check iam name (Some nn) cert names bodies dup_ok h) = Ret true ->
  nn <> "" -> np <> "" ->
  forall opath ocert ocert_id upload_date exp h',
    cert_meta iam name h = (Ret (opath, ocert, ocert_id, upload_date, exp), h') ->
    update_server_cert iam h' name (Some nn) (Some np) = inr tt ->
    let update := UpdateServerCert name (Some nn) (Some np) in
    cert_action iam name cpath (Some nn) (Some np) present cert key chain
                names bodies dup_ok h
    = (ExitJson
         [("changed", VBool true); ("original_name", pyval name);
          ("new_name", VStr nn); ("original_path", VStr opath);
          ("new_path", VStr np); ("cert_body", VStr ocert);
          ("upload_date", VStr upload_date); ("expiration_date", VStr exp)],
       h' ++ [update])
    /\ filter mutating (h' ++ [update]) = filter mutating h ++ [update].
Proof.
  intros Hu Hnn Hnp opath ocert ocert_id upload_date exp h' Hm Hr update.
  split.
  - unfold cert_action, bind.
    pose proof (dup_check_silent iam name (Some nn) cert names bodies dup_ok h) as Hs.
    destruct (dup_check iam name (Some nn) cert names bodies dup_ok h) as [o h0].
    simpl in Hu, Hs. subst o h0. rewrite Hm. simpl.
    apply String.eqb_neq in Hnn, Hnp. rewrite Hnn, Hnp. simpl.
    unfold remote. rewrite Hr. reflexivity.
  - rewrite mutations_app. simpl.
    rewrite <- (cert_meta_reads iam name h), Hm. reflexivity.
Qed.

(** ** Mutating calls per run *)

Section AtMost.

Context {A B : Type}.

Lemma at_most_weaken (a b : nat) (m : M A) :
  a <= b -> at_most a m -> at_most b m.
Proof.
  intros Hab Hm h. destruct (Hm h) as [calls [Hs Hl]].
  exists calls. split; [exact Hs | lia].
Qed.

Lemma at_most_ret (a : A) : at_most 0 (ret a).
Proof. intros h. exists []. simpl. rewrite app_nil_r. auto. Qed.

Lemma at_most_exit_json kw : at_most 0 (@exit_json A kw).
Proof. intros h. exists []. simpl. rewrite app_nil_r. auto. Qed.

Lemma at_most_fail_json kw : at_most 0 (@fail_json A kw).
Proof. intros h. exists []. simpl. rewrite app_nil_r. auto. Qed.

Lemma at_most_raise e : at_most 0 (@raise A e).
Proof. intros h. exists []. simpl. rewrite app_nil_r. auto. Qed.

Lemma at_most_remote (c : call) (reply : history -> string + A) :
  at_most (if mutating c then 1 else 0) (remote c reply).
Proof.
  intros h. exists [c]. unfold remote.
  split; [destruct (reply h); reflexivity|].
  simpl. destruct (mutating c); simpl; lia.
Qed.

Lemma at_most_bind (a b : nat) (m : M A) (f : A -> M B) :
  at_most a m -> (forall x, at_most b (f x)) -> at_most (a + b) (bind m f).
Proof.
  intros Hm Hf h. unfold bind.
  destruct (Hm h) as [calls [Hs Hl]].
  destruct (m h) as [[x| | |] h1]; simpl in Hs; subst h1;
    try (exists calls; split; [reflexivity | lia]).
  destruct (Hf x (h ++ calls)) as [calls' [Hs' Hl']].
  exists (calls ++ calls'). rewrite Hs', app_assoc, mutations_app, length_app.
  split; [reflexivity | lia].
Qed.

Lemma at_most_try (a b : nat) (m : M A) (handler : string -> M A) :
  at_most a m -> (forall msg, at_most b (handler msg)) ->
  at_most (a + b) (try_except_boto m handler).
Proof.
  intros Hm Hh h. unfold try_except_boto.
  destruct (Hm h) as [calls [Hs Hl]].
  destruct (m h) as [[x| | |[msg| | |]] h1]; simpl in Hs; subst h1;
    try (exists calls; split; [reflexivity | lia]).
  destruct (Hh msg (h ++ calls)) as [calls' [Hs' Hl']].
  exists (calls ++ calls'). rewrite Hs', app_assoc, mutations_app, length_app.
  split; [reflexivity | lia].
Qed.

End AtMost.

Lemma at_most_none {A} (m : M A) (h : history) :
  at_most 0 m -> filter mutating (snd (m h)) = filter mutating h.
Proof.
  intros Hm. destruct (Hm h) as [calls [Hs Hl]].
  rewrite Hs, mutations_app.
  destruct (filter mutating calls); [apply app_nil_r | simpl in Hl; lia].
Qed.

Lemma at_most_silent {A} (m : M A) :
  (forall h, snd (m h) = h) -> at_most 0 m.
Proof.
  intros Hm h. exists []. rewrite app_nil_r. split; [apply Hm | simpl; lia].
Qed.

Lemma at_most_fetch iam name : at_most 0 (get_server_certificate_result iam name).
Proof. apply (at_most_remote (GetServerCertificate name)). Qed.

Lemma at_most_cert_meta iam name : at_most 0 (cert_meta iam name).
Proof.
  unfold cert_meta.
  repeat (apply (at_most_bind 0 0); [apply at_most_fetch | intros ?]).
  apply at_most_ret.
Qed.

Lemma at_most_comprehension {A B} (f : A -> M B) (things : list A) :
  (forall x, at_most 0 (f x)) -> at_most 0 (comprehension f things).
Proof.
  intros Hf. induction things as [|x things IH]; simpl.
  - apply at_most_ret.
  - apply (at_most_bind 0 0); [apply Hf | intros b].
    apply (at_most_bind 0 0); [apply IH | intros bs]. apply at_most_ret.
Qed.

Lemma at_most_certificate_body_of iam thing :
  at_most 0 (certificate_body_of iam thing).
Proof.
  unfold certificate_body_of.
  apply (at_most_bind 0 0); [apply at_most_fetch | intros r; apply at_most_ret].
Qed.

Lemma at_most_load var l : at_most 0 (load var l).
Proof. destruct l; [apply at_most_ret | apply at_most_raise]. Qed.

(** Finish a branch of [cert_action]: one write, then the report. *)
Ltac one_write :=
  apply (at_most_bind 1 0);
  [ match goal with |- at_most 1 (remote ?c _) => apply (at_most_remote c) end
  | intros ?; apply at_most_exit_json ].

Lemma at_most_cert_action iam name cpath new_name new_path st cert key chain
    names bodies dup_ok :
  at_most 1 (cert_action iam name cpath new_name new_path st cert key chain
                         names bodies dup_ok).
Proof.
  unfold cert_action. destruct st.
  - apply (at_most_bind 0 1);
      [apply at_most_silent; intros h; apply dup_check_silent | intros update].
    destruct update.
    + apply (at_most_bind 0 1); [apply at_most_cert_meta|].
      intros [[[[opath ocert] ocert_id] upload_date] exp].
      destruct (truthy new_name && truthy new_path); [one_write|].
      destruct (truthy new_name && negb (truthy new_path)); [one_write|].
      destruct (negb (truthy new_name) && truthy new_path); [one_write|].
      apply (at_most_weaken 0 1); [lia | apply at_most_exit_json].
    + apply (at_most_bind 1 0);
        [apply (at_most_remote (UploadServerCert name cert key chain cpath))|].
      intros _. apply (at_most_bind 0 0); [apply at_most_cert_meta|].
      intros [[[[opath ocert] ocert_id] upload_date] exp].
      apply at_most_exit_json.
  - destruct (py_in name names); [one_write|].
    apply (at_most_weaken 0 1); [lia | apply at_most_exit_json].
Qed.

Lemma at_most_main env p : at_most 1 (main env p).
Proof.
  unfold main.
  apply (at_most_bind 0 1).
  { destruct (negb (HAS_BOTO env)); [apply at_most_fail_json | apply at_most_ret]. }
  intros _. apply (at_most_bind 0 1).
  { destruct (connect_to_aws env); [apply at_most_fail_json | apply at_most_ret]. }
  intros iam. apply (at_most_bind 0 1); [apply (at_most_remote GetAllServerCerts)|].
  intros orig_certs. apply (at_most_bind 0 1).
  { apply at_most_comprehension. intros x. apply at_most_certificate_body_of. }
  intros orig_bodies. apply (at_most_try 1 0).
  - apply (at_most_bind 0 1); [apply at_most_load | intros c].
    apply (at_most_bind 0 1); [apply at_most_load | intros k].
    apply at_most_cert_action.
  - intros msg.
    apply (at_most_bind 0 0); [apply at_most_load | intros c].
    apply (at_most_bind 0 0); [apply at_most_load | intros k].
    apply at_most_fail_json.
Qed.

Lemma mutating_or_read_only (c : call) : mutating c = negb (read_only c).
Proof. destruct c; reflexivity. Qed.

(** C8.  Whatever the state, the parameters, the service and the calls made
    before, a run of [main] only appends calls to the log; at most one of
    them is mutating (an upload, an update or a delete), and every other one
    is the listing or a certificate fetch. *)
Theorem main_at_most_one_mutation (env : environment) (p : params) (h : history) :
  exists calls,
    snd (main env p h) = h ++ calls
    /\ length (filter mutating calls) <= 1
    /\ Forall (fun c => mutating c = false -> read_only c = true) calls
    /\ length (filter read_only calls) + length (filter mutating calls)
       = length calls.
Proof.
  destruct (at_most_main env p h) as [calls [Hs Hl]].
  exists calls. repeat split; try assumption.
  - apply Forall_forall. intros c _. rewrite mutating_or_read_only.
    destruct (read_only c); [reflexivity | discriminate].
  - clear. induction calls as [|c calls IH]; simpl; [reflexivity|].
    rewrite mutating_or_read_only. destruct (read_only c); simpl; lia.
Qed.

(** ** Reconciliation, [state = absent] *)

(** C9.  With [state=absent]: when the name is in the inventory, the one
    mutating call is the delete, and once the service accepts it the run
    exits with [changed=True]; the same request on the inventory without
    that name then exits with [changed=False] and the already-absent
    message.  When the name is not in the inventory the run exits with
    [changed=False] and that message, without any call. *)
Theorem absent_deletes_then_already_absent
    iam (I : inventory) (name : option string) (cpath : string)
    (new_name new_path cert key chain : option string) (dup_ok : bool)
    (h : history) :
  let already_absent :=
    ExitJson [("changed", VBool false);
              ("msg", VStr ("Certificate with the name " ++ pystr name
                            ++ " already absent"))] in
  let delete := DeleteServerCert name in
  let run :=
    cert_action iam name cpath new_name new_path absent cert key chain
                (names_of I) (bodies_of I) dup_ok h in
  (py_in name (names_of I) = true ->
     filter mutating (snd run) = filter mutating h ++ [delete]
     /\ (delete_server_cert iam h name = inr tt ->
           run = (ExitJson [("changed", VBool true); ("deleted_cert", pyval name)],
                  h ++ [delete])
           /\ forall n iam' h',
                name = Some n ->
                cert_action iam' name cpath new_name new_path absent cert key
                            chain (names_of (without_name n I))
                            (bodies_of (without_name n I)) dup_ok h'
                = (already_absent, h')))
  /\ (py_in name (names_of I) = false -> run = (already_absent, h)).
Proof.
  intros already_absent delete run. subst run. unfold cert_action, bind, remote.
  split.
  - intros Hin. rewrite Hin. fold delete. split.
    + destruct (delete_server_cert iam h name); simpl;
        rewrite mutations_app; reflexivity.
    + intros Hd. rewrite Hd. split; [reflexivity|].
      intros n iam' h' Hn. subst already_absent. rewrite Hn.
      pose proof (without_name_absent n I) as Ha. apply py_in_false in Ha.
      rewrite Ha. reflexivity.
  - intros Hn. rewrite Hn. reflexivity.
Qed.

(** ** [main] *)

Arguments cert_action : simpl never.

Lemma stays_ret {A} (a : A) : stays (ret a).
Proof. intros h. exact I. Qed.

Lemma stays_remote {A} (c : call) (reply : history -> string + A) :
  stays (remote c reply).
Proof. intros h. unfold remote. destruct (reply h); exact I. Qed.

Lemma stays_bind {A B} (m : M A) (f : A -> M B) :
  stays m -> (forall x, stays (f x)) -> stays (bind m f).
Proof.
  intros Hm Hf h. unfold bind. specialize (Hm h).
  destruct (m h) as [[x| | |] h1]; simpl in *; try contradiction.
  - apply Hf.
  - exact I.
Qed.

Lemma stays_comprehension {A B} (f : A -> M B) (things : list A) :
  (forall x, stays (f x)) -> stays (comprehension f things).
Proof.
  intros Hf. induction things as [|x things IH]; simpl; [apply stays_ret|].
  apply stays_bind; [apply Hf | intros b].
  apply stays_bind; [apply IH | intros bs; apply stays_ret].
Qed.

Lemma stays_certificate_bodies iam things :
  stays (comprehension (certificate_body_of iam) things).
Proof.
  apply stays_comprehension. intros x. unfold certificate_body_of.
  apply stays_bind; [apply stays_remote | intros r; apply stays_ret].
Qed.

(** With no body, a name of the inventory is taken for an update. *)
Lemma dup_check_no_body iam n new_name names bodies dup_ok h :
  py_in (Some n) names = true ->
  dup_check iam (Some n) new_name None names bodies dup_ok h = (Ret true, h).
Proof. intros H. unfold dup_check. rewrite H. reflexivity. Qed.

(** C10.  With [state=present] and no [cert] parameter, [main] never exits
    with a result and issues no mutating call; once boto is there, the
    connection is made and the inventory is fetched, it stops with the
    unbound-variable error on [cert], before [cert_action] is entered.  The
    branch of [dup_check] for a missing body, which would make an update of
    it, is therefore out of reach from the parameters. *)
Theorem present_without_cert_unbound
    (env : environment) (p : params) (h : history) :
  p_state p = present ->
  p_cert p = None ->
  let run := main env p h in
  (forall kw, fst run <> ExitJson kw)
  /\ filter mutating (snd run) = filter mutating h
  /\ (forall iam names bodies h1 h2,
        HAS_BOTO env = true ->
        connect_to_aws env = inr iam ->
        remote GetAllServerCerts (get_all_server_certs iam) h = (Ret names, h1) ->
        comprehension (certificate_body_of iam) names h1 = (Ret bodies, h2) ->
        run = (Raise (UnboundLocalError "cert"), h2))
  /\ (forall iam n new_name names bodies dup_ok h0,
        py_in (Some n) names = true ->
        dup_check iam (Some n) new_name None names bodies dup_ok h0
        = (Ret true, h0)).
Proof.
  intros Hst Hc run. subst run.
  assert (Hrun : forall iam names bodies h1 h2,
             HAS_BOTO env = true ->
             connect_to_aws env = inr iam ->
             remote GetAllServerCerts (get_all_server_certs iam) h = (Ret names, h1) ->
             comprehension (certificate_body_of iam) names h1 = (Ret bodies, h2) ->
             main env p h = (Raise (UnboundLocalError "cert"), h2)).
  { intros iam names bodies h1 h2 Hb Hi Hl Hf.
    unfold main, bind. rewrite Hb, Hi, Hst, Hc. simpl. rewrite Hl, Hf.
    reflexivity. }
  split; [|split; [|split]].
  - intros kw.
    unfold main, bind. rewrite Hst, Hc.
    destruct (HAS_BOTO env); simpl; [|discriminate].
    destruct (connect_to_aws env) as [msg|iam]; simpl; [discriminate|].
    unfold remote at 1.
    destruct (get_all_server_certs iam h) as [msg|names]; simpl; [discriminate|].
    pose proof (stays_certificate_bodies iam names (h ++ [GetAllServerCerts])) as Hs.
    destruct (comprehension (certificate_body_of iam) names
                            (h ++ [GetAllServerCerts])) as [[bodies| | |] h2];
      simpl in *; try discriminate; contradiction.
  - unfold main, bind. rewrite Hst, Hc.
    destruct (HAS_BOTO env); simpl; [|reflexivity].
    destruct (connect_to_aws env) as [msg|iam]; simpl; [reflexivity|].
    unfold remote at 1.
    assert (Hg : filter mutating (h ++ [GetAllServerCerts]) = filter mutating h).
    { rewrite mutations_app. apply app_nil_r. }
    destruct (get_all_server_certs iam h) as [msg|names]; simpl; [exact Hg|].
    pose proof (at_most_none (comprehension (certificate_body_of iam) names)
                             (h ++ [GetAllServerCerts])
                             (at_most_comprehension _ _
                                (at_most_certificate_body_of iam))) as Hf.
    rewrite Hg in Hf.
    destruct (comprehension (certificate_body_of iam) names
                            (h ++ [GetAllServerCerts])) as [[bodies| | |] h2];
      simpl in *; exact Hf.
  - exact Hrun.
  - intros iam n new_name names bodies dup_ok h0. apply dup_check_no_body.
Qed.

(** What [main] hands to [fail_json] on a service error.  On a
    [state=present] run with body and key supplied, when boto is there, the
    connection is made, the inventory is fetched and [cert_action] raises a
    service error, the keyword arguments of the failure have a [debug]
    entry that is the list of the body and the key: it is left to the
    masking of the report to keep the key from the caller. *)
Lemma service_error_hands_over_key
    (env : environment) iam (p : params) (c k msg : string)
    (names bodies : list string) (h h1 h2 h3 : history) :
  HAS_BOTO env = true ->
  connect_to_aws env = inr iam ->
  p_state p = present ->
  p_cert p = Some c ->
  p_key p = Some k ->
  remote GetAllServerCerts (get_all_server_certs iam) h = (Ret names, h1) ->
  comprehension (certificate_body_of iam) names h1 = (Ret bodies, h2) ->
  cert_action iam (p_name p) (p_path p)
              (if py_eq (p_new_name p) (p_name p) then None else p_new_name p)
              (if py_eq (p_new_path p) (Some (p_path p)) then None
               else p_new_path p)
              present (Some c) (Some k) (p_cert_chain p) names bodies
              (p_dup_ok p) h2
  = (Raise (BotoServerError msg), h3) ->
  let payload := [("changed", VBool false); ("msg", VStr msg);
                  ("debug", VList [VStr c; VStr k])] in
  main env p h = (FailJson payload, h3)
  /\ payload_mentions k payload = true.
Proof.
  intros Hb Hi Hst Hc Hk Hl Hf Ha payload. split.
  - unfold main, bind. rewrite Hb, Hi, Hst, Hc, Hk. simpl. rewrite Hl, Hf.
    unfold try_except_boto. simpl. rewrite Ha. reflexivity.
  - unfold payload, payload_mentions. simpl.
    rewrite String.eqb_refl, !orb_true_r. reflexivity.
Qed.

(** ** The theorems at concrete inputs *)

(** An upload refused by the service: the keyword arguments of the failure
    carry the key. *)
Lemma service_error_hands_over_key_at_refused_create :
  let payload := [("changed", VBool false); ("msg", VStr "AccessDenied");
                  ("debug", VList [VStr "X"; VStr "K"])] in
  main (mk_environment true (inr (simulated false [])))
       (mk_params present (Some "cert1") (Some "X") (Some "K") None None "/"
                  None false) []
  = (FailJson payload,
     [GetAllServerCerts;
      UploadServerCert (Some "cert1") (Some "X") (Some "K") None "/"])
  /\ payload_mentions "K" payload = true.
Proof.
  apply (service_error_hands_over_key
           (mk_environment true (inr (simulated false [])))
           (simulated false [])
           (mk_params present (Some "cert1") (Some "X") (Some "K") None None "/"
                      None false)
           "X" "K" "AccessDenied" [] [] [] [GetAllServerCerts]
           [GetAllServerCerts]
           [GetAllServerCerts;
            UploadServerCert (Some "cert1") (Some "X") (Some "K") None "/"]);
    reflexivity.
Defined.

(** The stored body has CR LF line ends, the supplied one LF line ends. *)
Lemma present_same_body_unchanged_witness :
  cert_action (simulated true crlf_entries) (Some "alpha") "/" None None present
              (Some body_lf) (Some "K") None ["alpha"] [body_crlf] false []
  = (ExitJson
       [("changed", VBool false); ("name", VStr "alpha");
        ("cert_path", VStr "/"); ("cert_body", VStr body_crlf);
        ("upload_date", VStr "2016-05-01T00:00:00Z");
        ("expiration_date", VStr "2026-05-01T00:00:00Z");
        ("msg", VStr "No new path or name specified. No changes made")],
     [GetServerCertificate (Some "alpha"); GetServerCertificate (Some "alpha");
      GetServerCertificate (Some "alpha"); GetServerCertificate (Some "alpha");
      GetServerCertificate (Some "alpha")]).
Proof.
  exact (proj2 (present_same_body_unchanged
                  (simulated true crlf_entries) [("alpha", body_crlf)]
                  "alpha" body_crlf body_lf "/" (Some "K") None false []
                  eq_refl eq_refl)
               "/" body_crlf "ASCA1" "2016-05-01T00:00:00Z"
               "2026-05-01T00:00:00Z" _ eq_refl).
Defined.

Lemma present_other_body_conflict_witness :
  cert_action (simulated true alpha_entries) (Some "alpha") "/" None None present
              (Some "BODY2") (Some "K") None ["alpha"] ["BODY1"] false []
  = (FailJson
       [("changed", VBool false);
        ("msg", VStr "A cert with the name alpha already exists and has a different certificate body associated with it. Certificates cannot have the same name")],
     []).
Proof.
  apply (present_other_body_conflict
           (simulated true alpha_entries) [("alpha", "BODY1")]
           "alpha" "BODY1" "BODY2" "/" None None (Some "K") None false []
           eq_refl).
  discriminate.
Defined.

(** C4 as stated fails: the name and the body are new, the new name is taken,
    and the run ends in [ValueError] without any call. *)
Lemma present_new_name_taken_not_created :
  let I := [("beta", "B")] in
  let run :=
    cert_action (simulated true beta_entries) (Some "alpha") "/" (Some "beta")
                None present (Some "X") (Some "K") None (names_of I)
                (bodies_of I) false [] in
  py_in (Some "alpha") (names_of I) = false
  /\ py_in (Some "X") (bodies_of I) = false
  /\ run = (Raise ValueError, [])
  /\ filter mutating (snd run)
     <> [UploadServerCert (Some "alpha") (Some "X") (Some "K") None "/"].
Proof. repeat split; try reflexivity. discriminate. Qed.

Lemma present_new_certificate_created_witness :
  cert_action (simulated true []) (Some "cert1") "/" None None present
              (Some "X") (Some "K") None [] [] false []
  = (ExitJson [("changed", VBool true); ("name", VStr "cert1");
               ("cert_path", VStr "/"); ("cert_body", VStr "X");
               ("upload_date", VStr "2017-01-01T00:00:00Z");
               ("expiration_date", VStr "2027-01-01T00:00:00Z")],
     [UploadServerCert (Some "cert1") (Some "X") (Some "K") None "/";
      GetServerCertificate (Some "cert1"); GetServerCertificate (Some "cert1");
      GetServerCertificate (Some "cert1"); GetServerCertificate (Some "cert1");
      GetServerCertificate (Some "cert1")]).
Proof.
  exact (proj2 (present_new_certificate_created
                  (simulated true []) [] (Some "cert1") None None (Some "X")
                  (Some "K") None "/" false [] eq_refl eq_refl eq_refl)
               "/" "X" "ASCAEXAMPLE" "2017-01-01T00:00:00Z"
               "2027-01-01T00:00:00Z" _ eq_refl eq_refl).
Defined.

(** C5 as stated fails: the name is new, the body is that of [beta], the new
    name is taken, and the run ends in [ValueError], not in the report of a
    duplicate. *)
Lemma present_new_name_taken_not_rejected :
  let I := [("beta", "B")] in
  py_in (Some "alpha") (names_of I) = false
  /\ In ("beta", "B") I
  /\ cert_action (simulated true beta_entries) (Some "alpha") "/" (Some "beta")
                 None present (Some "B") (Some "K") None (names_of I)
                 (bodies_of I) false []
     = (Raise ValueError, []).
Proof. repeat split; try reflexivity. now left. Qed.

Lemma present_duplicate_body_rejected_witness :
  exists clash,
    name_of_body [("beta", "B")] "B" = Some clash
    /\ In (clash, "B") [("beta", "B")]
    /\ Some "alpha" <> Some clash
    /\ cert_action (simulated true beta_entries) (Some "alpha") "/" None None
                   present (Some "B") (Some "K") None ["beta"] ["B"] false []
       = (FailJson [("changed", VBool false);
                    ("msg", VStr (msg_already_exists clash))], []).
Proof.
  apply (present_duplicate_body_rejected
           (simulated true beta_entries) [("beta", "B")] (Some "alpha") None None
           (Some "K") None "B" "/" [] eq_refl eq_refl).
  simpl. now left.
Defined.

Lemma dup_check_new_name_only_raises_witness :
  dup_check (simulated true beta_entries) (Some "alpha") (Some "beta") (Some "B")
            ["beta"] ["B"] false []
  = (Raise ValueError, []).
Proof.
  apply (dup_check_new_name_only_raises
           (simulated true beta_entries) "alpha" "beta" "B" ["beta"] ["B"]
           false []); reflexivity.
Defined.

Lemma present_rename_and_move_witness :
  cert_action (simulated true alpha_entries) (Some "alpha") "/" (Some "beta")
              (Some "/new/") present (Some "BODY1") (Some "K") None
              ["alpha"] ["BODY1"] false []
  = (ExitJson
       [("changed", VBool true); ("original_name", VStr "alpha");
        ("new_name", VStr "beta"); ("original_path", VStr "/");
        ("new_path", VStr "/new/"); ("cert_body", VStr "BODY1");
        ("upload_date", VStr "2016-05-01T00:00:00Z");
        ("expiration_date", VStr "2026-05-01T00:00:00Z")],
     [GetServerCertificate (Some "alpha"); GetServerCertificate (Some "alpha");
      GetServerCertificate (Some "alpha"); GetServerCertificate (Some "alpha");
      GetServerCertificate (Some "alpha");
      UpdateServerCert (Some "alpha") (Some "beta") (Some "/new/")]).
Proof.
  assert (Hnn : "beta" <> "") by discriminate.
  assert (Hnp : "/new/" <> "") by discriminate.
  apply (proj1 (present_rename_and_move
                  (simulated true alpha_entries) (Some "alpha") (Some "BODY1")
                  (Some "K") None "beta" "/new/" "/" ["alpha"] ["BODY1"] false []
                  eq_refl Hnn Hnp "/" "BODY1" "ASCA1" "2016-05-01T00:00:00Z"
                  "2026-05-01T00:00:00Z" _ eq_refl eq_refl)).
Defined.

Lemma absent_deletes_then_already_absent_witness :
  cert_action (simulated true alpha_entries) (Some "alpha") "/" None None absent
              None None None ["alpha"] ["BODY1"] false []
  = (ExitJson [("changed", VBool true); ("deleted_cert", VStr "alpha")],
     [DeleteServerCert (Some "alpha")])
  /\ cert_action (simulated true alpha_entries) (Some "alpha") "/" None None
                 absent None None None [] [] false
                 [DeleteServerCert (Some "alpha")]
     = (ExitJson [("changed", VBool false);
                  ("msg", VStr "Certificate with the name alpha already absent")],
        [DeleteServerCert (Some "alpha")]).
Proof.
  destruct (proj2 (proj1 (absent_deletes_then_already_absent
                            (simulated true alpha_entries) [("alpha", "BODY1")]
                            (Some "alpha") "/" None None None None None false [])
                         eq_refl) eq_refl) as [H1 H2].
  split.
  - exact H1.
  - exact (H2 "alpha" (simulated true alpha_entries)
              [DeleteServerCert (Some "alpha")] eq_refl).
Defined.

Lemma present_without_cert_unbound_witness :
  main (mk_environment true (inr (simulated true alpha_entries)))
       (mk_params present (Some "alpha") None (Some "K") None (Some "beta") "/"
                  None false) []
  = (Raise (UnboundLocalError "cert"),
     [GetAllServerCerts; GetServerCertificate (Some "alpha")]).
Proof.
  apply (proj1 (proj2 (proj2
           (present_without_cert_unbound
              (mk_environment true (inr (simulated true alpha_entries)))
              (mk_params present (Some "alpha") None (Some "K") None
                         (Some "beta") "/" None false) [] eq_refl eq_refl)))
           (simulated true alpha_entries) ["alpha"] ["BODY1"]
           [GetAllServerCerts]
           [GetAllServerCerts; GetServerCertificate (Some "alpha")]);
    reflexivity.
Defined.

(** ** Further properties of the module *)

(** *** The metadata fetch *)

(** Solve "the fetches before the last one were answered" from the
    answers in the context. *)
Ltac earlier_fetches :=
  let i := fresh "i" in
  let Hi := fresh "Hi" in
  intros i Hi; unfold nth_fetch;
  repeat (destruct i as [|i];
          [eexists; simpl; rewrite ?app_nil_r; eassumption|]);
  lia.

(** Write the log of the hypothesis [H] as one list after [h]. *)
Ltac flat_log H := repeat (rewrite <- app_assoc in H; simpl in H).

(** X1.  [cert_meta] asks the service for the same certificate once per
    field.  It logs the fetches of [name] up to the first one that the
    service refuses, and nothing else; all the fetches before that one were
    answered, and it ends in the service error of that one.  When none of
    the five is refused it returns the path of the first answer, the body
    of the second, the id of the third, the upload date of the fourth and
    the expiration of the fifth. *)
Theorem cert_meta_five_fetches iam (name : option string) (h : history) :
  exists j,
    j < 5
    /\ snd (cert_meta iam name h) = h ++ repeat (GetServerCertificate name) (S j)
    /\ (forall i, i < j -> exists r, nth_fetch iam name h i = inr r)
    /\ match fst (cert_meta iam name h) with
       | Ret (opath, ocert, ocert_id, upload_date, exp) =>
           j = 4
           /\ exists r1 r2 r3 r4 r5,
                nth_fetch iam name h 0 = inr r1
                /\ nth_fetch iam name h 1 = inr r2
                /\ nth_fetch iam name h 2 = inr r3
                /\ nth_fetch iam name h 3 = inr r4
                /\ nth_fetch iam name h 4 = inr r5
                /\ opath = sc_path r1
                /\ ocert = certificate_body r2
                /\ ocert_id = server_certificate_id r3
                /\ upload_date = sc_upload_date r4
                /\ exp = sc_expiration r5
       | Raise e =>
           exists msg, e = BotoServerError msg /\ nth_fetch iam name h j = inl msg
       | ExitJson _ => False
       | FailJson _ => False
       end.
Proof.
  unfold cert_meta, get_server_certificate_result, bind, remote.
  destruct (get_server_certificate iam h name) as [m1|r1] eqn:G1.
  { exists 0. simpl. repeat split; [lia | earlier_fetches|].
    exists m1. unfold nth_fetch. simpl. rewrite app_nil_r. now split. }
  destruct (get_server_certificate iam (h ++ [GetServerCertificate name]) name)
    as [m2|r2] eqn:G2.
  { exists 1. simpl. rewrite <- !app_assoc. repeat split; [lia | earlier_fetches|].
    exists m2. now split. }
  destruct (get_server_certificate
              iam ((h ++ [GetServerCertificate name])
                     ++ [GetServerCertificate name]) name) as [m3|r3] eqn:G3.
  { flat_log G3.
    exists 2. simpl. rewrite <- !app_assoc. repeat split; [lia | earlier_fetches|].
    exists m3. now split. }
  destruct (get_server_certificate
              iam (((h ++ [GetServerCertificate name])
                      ++ [GetServerCertificate name])
                     ++ [GetServerCertificate name]) name) as [m4|r4] eqn:G4.
  { flat_log G3. flat_log G4.
    exists 3. simpl. rewrite <- !app_assoc. repeat split; [lia | earlier_fetches|].
    exists m4. now split. }
  destruct (get_server_certificate
              iam ((((h ++ [GetServerCertificate name])
                       ++ [GetServerCertificate name])
                      ++ [GetServerCertificate name])
                     ++ [GetServerCertificate name]) name) as [m5|r5] eqn:G5;
    flat_log G3; flat_log G4; flat_log G5;
    exists 4; simpl; rewrite <- !app_assoc;
    (repeat split; [lia | earlier_fetches|]).
  - exists m5. now split.
  - exists r1, r2, r3, r4, r5. unfold nth_fetch. simpl. rewrite app_nil_r.
    repeat split; assumption.
Qed.

(** *** The three other branches of an update *)

(** Enter the update branch of [cert_action]: [Hu] says that [dup_check]
    found an update, [Hm] what the metadata fetch returned. *)
Ltac enter_update Hu Hm :=
  unfold cert_action, bind;
  match goal with
  | |- context [dup_check ?iam ?name ?nn ?cert ?names ?bodies ?dup_ok ?h] =>
      let Hs := fresh "Hs" in
      let o := fresh "o" in
      let h0 := fresh "h0" in
      pose proof (dup_check_silent iam name nn cert names bodies dup_ok h) as Hs;
      destruct (dup_check iam name nn cert names bodies dup_ok h) as [o h0];
      simpl in Hu, Hs; subst o h0
  end;
  rewrite Hm; cbn beta iota.

(** X2.  On an update with a new name given (non-empty) and no new path
    ([None] or the empty string), once the metadata fetch is answered and
    the service accepts the call, the run issues the one rename call, with
    no path in it, and exits with [changed=True], the original and the new
    name, and the path, body and dates as fetched. *)
Theorem present_rename_only
    iam (name new_path cert key chain : option string) (nn cpath : string)
    (names bodies : list string) (dup_ok : bool) (h : history) :
  fst (dup_check iam name (Some nn) cert names bodies dup_ok h) = Ret true ->
  nn <> "" ->
  truthy new_path = false ->
  forall opath ocert ocert_id upload_date exp h',
    cert_meta iam name h = (Ret (opath, ocert, ocert_id, upload_date, exp), h') ->
    update_server_cert iam h' name (Some nn) None = inr tt ->
    let update := UpdateServerCert name (Some nn) None in
    cert_action iam name cpath (Some nn) new_path present cert key chain
                names bodies dup_ok h
    = (ExitJson
         [("changed", VBool true); ("original_name", pyval name);
          ("new_name", VStr nn); ("cert_path", VStr opath);
          ("cert_body", VStr ocert); ("upload_date", VStr upload_date);
          ("expiration_date", VStr exp)],
       h' ++ [update])
    /\ filter mutating (h' ++ [update]) = filter mutating h ++ [update].
Proof.
  intros Hu Hnn Hnp opath ocert ocert_id upload_date exp h' Hm Hr update.
  split.
  - enter_update Hu Hm.
    apply String.eqb_neq in Hnn.
    change (truthy (Some nn)) with (negb (String.eqb nn "")).
    rewrite Hnn, Hnp. simpl.
    unfold remote. rewrite Hr. reflexivity.
  - rewrite mutations_app. simpl.
    rewrite <- (cert_meta_reads iam name h), Hm. reflexivity.
Qed.

(** X3.  On an update with a new path given (non-empty) and no new name
    ([None] or the empty string), once the metadata fetch is answered and
    the service accepts the call, the run issues the one move call, with no
    new name in it, and exits with [changed=True], the original and the new
    path, and the body and dates as fetched.  The [name] entry of the result
    is the new name, that is [None] or the empty string, not the name of the
    certificate. *)
Theorem present_move_only
    iam (name new_name cert key chain : option string) (np cpath : string)
    (names bodies : list string) (dup_ok : bool) (h : history) :
  fst (dup_check iam name new_name cert names bodies dup_ok h) = Ret true ->
  truthy new_name = false ->
  np <> "" ->
  forall opath ocert ocert_id upload_date exp h',
    cert_meta iam name h = (Ret (opath, ocert, ocert_id, upload_date, exp), h') ->
    update_server_cert iam h' name None (Some np) = inr tt ->
    let update := UpdateServerCert name None (Some np) in
    cert_action iam name cpath new_name (Some np) present cert key chain
                names bodies dup_ok h
    = (ExitJson
         [("changed", VBool true); ("name", pyval new_name);
          ("original_path", VStr opath); ("new_path", VStr np);
          ("cert_body", VStr ocert); ("upload_date", VStr upload_date);
          ("expiration_date", VStr exp)],
       h' ++ [update])
    /\ filter mutating (h' ++ [update]) = filter mutating h ++ [update]
    /\ (pyval new_name = VNone \/ pyval new_name = VStr "").
Proof.
  intros Hu Hnn Hnp opath ocert ocert_id upload_date exp h' Hm Hr update.
  split; [|split].
  - enter_update Hu Hm.
    apply String.eqb_neq in Hnp.
    change (truthy (Some np)) with (negb (String.eqb np "")).
    rewrite Hnn, Hnp.
    simpl. unfold remote. rewrite Hr. reflexivity.
  - rewrite mutations_app. simpl.
    rewrite <- (cert_meta_reads iam name h), Hm. reflexivity.
  - destruct new_name as [s|]; [|now left].
    right. simpl in Hnn. apply negb_false_iff, String.eqb_eq in Hnn. now subst.
Qed.

(** X4.  On an update where neither a new name nor a new path is given,
    the empty string counting as not given, the run issues no mutating call,
    and once the metadata fetch is answered it exits with [changed=False],
    the name, the fetched path, body and dates, and the message that nothing
    was changed. *)
Theorem present_update_nothing_to_do
    iam (name new_name new_path cert key chain : option string) (cpath : string)
    (names bodies : list string) (dup_ok : bool) (h : history) :
  fst (dup_check iam name new_name cert names bodies dup_ok h) = Ret true ->
  truthy new_name = false ->
  truthy new_path = false ->
  let run := cert_action iam name cpath new_name new_path present cert key chain
                         names bodies dup_ok h in
  filter mutating (snd run) = filter mutating h
  /\ forall opath ocert ocert_id upload_date exp h',
       cert_meta iam name h
       = (Ret (opath, ocert, ocert_id, upload_date, exp), h') ->
       run = (ExitJson
                [("changed", VBool false); ("name", pyval name);
                 ("cert_path", VStr opath); ("cert_body", VStr ocert);
                 ("upload_date", VStr upload_date);
                 ("expiration_date", VStr exp);
                 ("msg", VStr "No new path or name specified. No changes made")],
              h').
Proof.
  intros Hu Hnn Hnp run. subst run. split.
  - rewrite <- (cert_meta_reads iam name h).
    destruct (cert_meta iam name h) as [o h1] eqn:Hm.
    destruct o as [[[[[opath ocert] oid] ud] ex]| | |];
      enter_update Hu Hm; rewrite ?Hnn, ?Hnp; reflexivity.
  - intros opath ocert ocert_id upload_date exp h' Hm.
    enter_update Hu Hm. rewrite Hnn, Hnp. reflexivity.
Qed.

(** *** Uploads *)

(** X5.  With [dup_ok] set, a certificate whose name and new name (if any)
    are not in the inventory is uploaded whatever its body, also when
    another certificate already holds that body: exactly one mutating call
    is issued, the upload, and when the service accepts it and answers the
    metadata fetch the run exits with [changed=True]. *)
Theorem present_duplicate_allowed
    iam (I : inventory) (name new_name new_path cert key chain : option string)
    (cpath : string) (h : history) :
  py_in name (names_of I) = false ->
  py_in new_name (names_of I) = false ->
  let upload := UploadServerCert name cert key chain cpath in
  let run := cert_action iam name cpath new_name new_path present cert key chain
                         (names_of I) (bodies_of I) true h in
  filter mutating (snd run) = filter mutating h ++ [upload]
  /\ forall opath ocert ocert_id upload_date exp h',
       upload_server_cert iam h name cert key chain cpath = inr tt ->
       cert_meta iam name (h ++ [upload])
       = (Ret (opath, ocert, ocert_id, upload_date, exp), h') ->
       run = (ExitJson
                [("changed", VBool true); ("name", pyval name);
                 ("cert_path", VStr opath); ("cert_body", VStr ocert);
                 ("upload_date", VStr upload_date);
                 ("expiration_date", VStr exp)],
              h').
Proof.
  intros H1 H2 upload run. subst run.
  assert (Hd : dup_check iam name new_name cert (names_of I) (bodies_of I) true h
               = (Ret false, h)).
  { unfold dup_check. rewrite H1, H2. simpl. now rewrite andb_false_r. }
  unfold cert_action, bind. rewrite Hd. unfold remote. fold upload.
  destruct (upload_server_cert iam h name cert key chain cpath) as [msg|[]].
  - split; [|discriminate]. simpl. rewrite mutations_app. reflexivity.
  - split.
    + pose proof (cert_meta_reads iam name (h ++ [upload])) as Hr.
      rewrite mutations_app in Hr. simpl in Hr.
      destruct (cert_meta iam name (h ++ [upload]))
        as [[[[[[opath ocert] oid] ud] ex]| | |] h']; exact Hr.
    + intros opath ocert ocert_id upload_date exp h' _ Hm. rewrite Hm. reflexivity.
Qed.

(** X6.  When the upload is accepted and the metadata fetch that follows it
    is refused, [cert_action] ends in that service error although the
    certificate has been uploaded: the log holds the upload and the one
    refused fetch. *)
Theorem present_upload_then_fetch_refused
    iam (I : inventory) (name new_name new_path cert key chain : option string)
    (cpath msg : string) (dup_ok : bool) (h : history) :
  py_in name (names_of I) = false ->
  py_in new_name (names_of I) = false ->
  py_in cert (bodies_of I) = false ->
  let upload := UploadServerCert name cert key chain cpath in
  upload_server_cert iam h name cert key chain cpath = inr tt ->
  get_server_certificate iam (h ++ [upload]) name = inl msg ->
  cert_action iam name cpath new_name new_path present cert key chain
              (names_of I) (bodies_of I) dup_ok h
  = (Raise (BotoServerError msg), h ++ [upload; GetServerCertificate name]).
Proof.
  intros H1 H2 H3 upload Hu Hg.
  unfold cert_action, bind.
  rewrite (dup_check_fresh iam name new_name cert _ _ dup_ok h H1 H2 H3).
  unfold remote at 1. fold upload. rewrite Hu.
  unfold cert_meta, get_server_certificate_result, bind, remote.
  rewrite Hg. rewrite <- app_assoc. reflexivity.
Qed.

(** *** [main]: parameters and set-up *)

Lemma py_eq_refl (x : option string) : py_eq x x = true.
Proof. destruct x; simpl; [apply String.eqb_refl | reflexivity]. Qed.

(** X7.  A new name equal to the name is dropped, and so is a new path
    equal to the path: the run is the run without it. *)
Theorem main_rename_to_current (env : environment) (p : params) (h : history) :
  (p_new_name p = p_name p -> main env p h = main env (set_new_name None p) h)
  /\ (p_new_path p = Some (p_path p) ->
      main env p h = main env (set_new_path None p) h).
Proof.
  destruct p as [st name cert key chain new_name path new_path dup_ok].
  unfold set_new_name, set_new_path. simpl. split; intros ->; unfold main; simpl.
  - rewrite py_eq_refl. destruct name; reflexivity.
  - rewrite String.eqb_refl. reflexivity.
Qed.

(** X8.  With [state=present], a body and no [key] parameter, [main] never
    exits with a result and issues no mutating call; once boto is there, the
    connection is made and the inventory is fetched, it stops with the
    unbound-variable error on [key], before [cert_action] is entered. *)
Theorem present_without_key_unbound
    (env : environment) (p : params) (c : string) (h : history) :
  p_state p = present ->
  p_cert p = Some c ->
  p_key p = None ->
  let run := main env p h in
  (forall kw, fst run <> ExitJson kw)
  /\ filter mutating (snd run) = filter mutating h
  /\ (forall iam names bodies h1 h2,
        HAS_BOTO env = true ->
        connect_to_aws env = inr iam ->
        remote GetAllServerCerts (get_all_server_certs iam) h = (Ret names, h1) ->
        comprehension (certificate_body_of iam) names h1 = (Ret bodies, h2) ->
        run = (Raise (UnboundLocalError "key"), h2)).
Proof.
  intros Hst Hc Hk run. subst run. split; [|split].
  - intros kw.
    unfold main, bind. rewrite Hst, Hc, Hk.
    destruct (HAS_BOTO env); simpl; [|discriminate].
    destruct (connect_to_aws env) as [msg|iam]; simpl; [discriminate|].
    unfold remote at 1.
    destruct (get_all_server_certs iam h) as [msg|names]; simpl; [discriminate|].
    pose proof (stays_certificate_bodies iam names (h ++ [GetAllServerCerts])) as Hs.
    destruct (comprehension (certificate_body_of iam) names
                            (h ++ [GetAllServerCerts])) as [[bodies| | |] h2];
      simpl in *; try discriminate; contradiction.
  - unfold main, bind. rewrite Hst, Hc, Hk.
    destruct (HAS_BOTO env); simpl; [|reflexivity].
    destruct (connect_to_aws env) as [msg|iam]; simpl; [reflexivity|].
    unfold remote at 1.
    assert (Hg : filter mutating (h ++ [GetAllServerCerts]) = filter mutating h).
    { rewrite mutations_app. apply app_nil_r. }
    destruct (get_all_server_certs iam h) as [msg|names]; simpl; [exact Hg|].
    pose proof (at_most_none (comprehension (certificate_body_of iam) names)
                             (h ++ [GetAllServerCerts])
                             (at_most_comprehension _ _
                                (at_most_certificate_body_of iam))) as Hf.
    rewrite Hg in Hf.
    destruct (comprehension (certificate_body_of iam) names
                            (h ++ [GetAllServerCerts])) as [[bodies| | |] h2];
      simpl in *; exact Hf.
  - intros iam names bodies h1 h2 Hb Hi Hl Hf.
    unfold main, bind. rewrite Hb, Hi, Hst, Hc, Hk. simpl. rewrite Hl, Hf.
    reflexivity.
Qed.

(** X9.  With [state=absent] only the name counts: two parameter sets with
    the same name give the same run, whatever their body, key, chain, path,
    new name, new path and [dup_ok]. *)
Theorem absent_depends_on_name_only
    (env : environment) (p p' : params) (h : history) :
  p_state p = absent ->
  p_state p' = absent ->
  p_name p = p_name p' ->
  main env p h = main env p' h.
Proof.
  destruct p as [st name cert key chain new_name path new_path dup_ok].
  destruct p' as [st' name' cert' key' chain' new_name' path' new_path' dup_ok'].
  simpl. intros -> -> <-. reflexivity.
Qed.

(** X10.  Without boto, [main] fails with the message that boto is required;
    with boto but no credentials, it fails with the text of the
    authentication error.  In both cases no remote call is made. *)
Theorem main_setup_failures (env : environment) (p : params) (h : history) :
  (HAS_BOTO env = false ->
   main env p h
   = (FailJson [("msg", VStr "Boto is required for this module")], h))
  /\ (forall msg,
        HAS_BOTO env = true ->
        connect_to_aws env = inl msg ->
        main env p h = (FailJson [("msg", VStr msg)], h)).
Proof.
  split.
  - intros Hb. unfold main, bind. rewrite Hb. reflexivity.
  - intros msg Hb Hc. unfold main, bind. rewrite Hb, Hc. reflexivity.
Qed.

(** X11.  A service error while the inventory is fetched, in the listing or
    in the fetch of a listed body, is not turned into a failure report: it
    leaves [main] as the exception it is, and no mutating call has been
    made. *)
Theorem main_inventory_error_uncaught
    (env : environment) iam (p : params) (h : history) :
  HAS_BOTO env = true ->
  connect_to_aws env = inr iam ->
  (forall msg,
     get_all_server_certs iam h = inl msg ->
     main env p h = (Raise (BotoServerError msg), h ++ [GetAllServerCerts]))
  /\ (forall names msg h2,
        get_all_server_certs iam h = inr names ->
        comprehension (certificate_body_of iam) names (h ++ [GetAllServerCerts])
        = (Raise (BotoServerError msg), h2) ->
        main env p h = (Raise (BotoServerError msg), h2)
        /\ filter mutating h2 = filter mutating h).
Proof.
  intros Hb Hc. split.
  - intros msg Hl. unfold main, bind, remote. rewrite Hb, Hc. simpl.
    rewrite Hl. reflexivity.
  - intros names msg h2 Hl Hf. split.
    + unfold main, bind, remote. rewrite Hb, Hc. simpl. rewrite Hl, Hf.
      reflexivity.
    + pose proof (at_most_none (comprehension (certificate_body_of iam) names)
                               (h ++ [GetAllServerCerts])
                               (at_most_comprehension _ _
                                  (at_most_certificate_body_of iam))) as Hm.
      rewrite Hf, mutations_app in Hm. simpl in Hm.
      now rewrite app_nil_r in Hm.
Qed.

Lemma certificate_bodies_parallel iam names :
  forall bodies h h',
    comprehension (certificate_body_of iam) names h = (Ret bodies, h') ->
    length bodies = length names /\ h' = h ++ map fetch_of names.
Proof.
  induction names as [|n names IH]; intros bodies h h'; simpl.
  - intros [= <- <-]. now rewrite app_nil_r.
  - unfold bind at 1. unfold certificate_body_of at 1.
    unfold bind at 1, get_server_certificate_result, remote.
    destruct (get_server_certificate iam h (Some n)) as [msg|r]; [discriminate|].
    simpl. unfold bind at 1.
    destruct (comprehension (certificate_body_of iam) names
                            (h ++ [GetServerCertificate (Some n)]))
      as [[bs| | |] h1] eqn:E; try discriminate.
    simpl. intros [= <- <-].
    destruct (IH bs _ _ E) as [Hl Hh]. split; [simpl; now rewrite Hl|].
    rewrite Hh, <- app_assoc. reflexivity.
Qed.

(** X12.  When the fetch of the bodies completes, there is one body per
    listed name, in the order of the listing, and the log has grown by one
    fetch per listed name, in that order. *)
Theorem inventory_fetch_parallel
    iam (names bodies : list string) (h h' : history) :
  comprehension (certificate_body_of iam) names h = (Ret bodies, h') ->
  length bodies = length names
  /\ h' = h ++ map fetch_of names
  /\ forall i n,
       nth_error names i = Some n ->
       exists r,
         get_server_certificate iam (h ++ map fetch_of (firstn i names)) (Some n)
         = inr r
         /\ nth_error bodies i = Some (certificate_body r).
Proof.
  intros H. destruct (certificate_bodies_parallel iam names bodies h h' H) as [Hl Hh].
  split; [exact Hl | split; [exact Hh|]].
  clear Hl Hh. revert bodies h h' H.
  induction names as [|m names IH]; intros bodies h h' H i n Hn.
  - destruct i; discriminate.
  - simpl in H. unfold bind at 1 in H. unfold certificate_body_of at 1 in H.
    unfold bind at 1, get_server_certificate_result, remote in H.
    destruct (get_server_certificate iam h (Some m)) as [msg|r] eqn:Eg;
      [discriminate|].
    simpl in H. unfold bind at 1 in H.
    destruct (comprehension (certificate_body_of iam) names
                            (h ++ [GetServerCertificate (Some m)]))
      as [[bs| | |] h1] eqn:E; try discriminate.
    simpl in H. injection H as <- <-.
    destruct i as [|i]; simpl in Hn.
    + injection Hn as <-. exists r. simpl. rewrite app_nil_r. split; [exact Eg | reflexivity].
    + destruct (IH bs _ _ E i n Hn) as [r' [Hr Hb]].
      exists r'. simpl. split; [|exact Hb].
      rewrite <- app_assoc in Hr. exact Hr.
Qed.

(** *** Exceptions other than service errors *)

Lemma never_raises_ret {A} e (a : A) : never_raises e (ret a).
Proof. intros h. discriminate. Qed.

Lemma never_raises_exit_json {A} e kw : never_raises e (@exit_json A kw).
Proof. intros h. discriminate. Qed.

Lemma never_raises_fail_json {A} e kw : never_raises e (@fail_json A kw).
Proof. intros h. discriminate. Qed.

Lemma never_raises_remote {A} e (c : call) (reply : history -> string + A) :
  (forall msg, e <> BotoServerError msg) -> never_raises e (remote c reply).
Proof.
  intros He h. unfold remote. destruct (reply h) as [msg|a]; simpl.
  - intros [= <-]. now apply (He msg).
  - discriminate.
Qed.

Lemma never_raises_bind {A B} e (m : M A) (f : A -> M B) :
  never_raises e m -> (forall x, never_raises e (f x)) ->
  never_raises e (bind m f).
Proof.
  intros Hm Hf h. unfold bind. specialize (Hm h).
  destruct (m h) as [[x| | |e'] h1]; simpl in *; try discriminate.
  - apply Hf.
  - intros [= ->]. now apply Hm.
Qed.

Lemma never_raises_comprehension {A B} e (f : A -> M B) (things : list A) :
  (forall x, never_raises e (f x)) -> never_raises e (comprehension f things).
Proof.
  intros Hf. induction things as [|x things IH]; simpl.
  - apply never_raises_ret.
  - apply never_raises_bind; [apply Hf | intros b].
    apply never_raises_bind; [apply IH | intros bs; apply never_raises_ret].
Qed.

Lemma never_raises_cert_meta e iam name :
  (forall msg, e <> BotoServerError msg) -> never_raises e (cert_meta iam name).
Proof.
  intros He. unfold cert_meta, get_server_certificate_result.
  repeat (apply never_raises_bind; [now apply never_raises_remote | intros ?]).
  apply never_raises_ret.
Qed.

Lemma never_raises_certificate_body_of e iam thing :
  (forall msg, e <> BotoServerError msg) ->
  never_raises e (certificate_body_of iam thing).
Proof.
  intros He. unfold certificate_body_of, get_server_certificate_result.
  apply never_raises_bind; [now apply never_raises_remote | intros r].
  apply never_raises_ret.
Qed.

(** In [cert_action], an exception that is not a service error can only
    come out of [dup_check]. *)
Lemma cert_action_raise_from_dup_check
    e iam name cpath new_name new_path st cert key chain names bodies dup_ok h :
  (forall msg, e <> BotoServerError msg) ->
  fst (cert_action iam name cpath new_name new_path st cert key chain
                   names bodies dup_ok h) = Raise e ->
  st = present
  /\ fst (dup_check iam name new_name cert names bodies dup_ok h) = Raise e.
Proof.
  intros He. unfold cert_action. destruct st.
  - unfold bind at 1.
    destruct (dup_check iam name new_name cert names bodies dup_ok h)
      as [[update| | |e'] h0]; simpl; try discriminate;
      [|intros [= ->]; split; reflexivity].
    intros H. exfalso. revert H.
    destruct update.
    + apply never_raises_bind; [now apply never_raises_cert_meta|].
      intros [[[[opath ocert] ocert_id] upload_date] exp].
      destruct (truthy new_name && truthy new_path);
        [apply never_raises_bind;
         [now apply never_raises_remote | intros; apply never_raises_exit_json]|].
      destruct (truthy new_name && negb (truthy new_path));
        [apply never_raises_bind;
         [now apply never_raises_remote | intros; apply never_raises_exit_json]|].
      destruct (negb (truthy new_name) && truthy new_path);
        [apply never_raises_bind;
         [now apply never_raises_remote | intros; apply never_raises_exit_json]|].
      apply never_raises_exit_json.
    + apply never_raises_bind; [now apply never_raises_remote | intros _].
      apply never_raises_bind; [now apply never_raises_cert_meta|].
      intros [[[[opath ocert] ocert_id] upload_date] exp].
      apply never_raises_exit_json.
  - intros H. exfalso. revert H.
    destruct (py_in name names).
    + apply never_raises_bind;
        [now apply never_raises_remote | intros; apply never_raises_exit_json].
    + apply never_raises_exit_json.
Qed.

Lemma index_present (l : list string) (x : string) :
  py_in (Some x) l = true -> exists i, index l x = Some i /\ i < length l.
Proof.
  induction l as [|y l IH]; simpl; [discriminate|].
  rewrite (String.eqb_sym x y).
  destruct (String.eqb y x); simpl.
  - intros _. exists 0. split; [reflexivity | lia].
  - intros H. destruct (IH H) as [i [Hi Hl]].
    exists (S i). rewrite Hi. split; [reflexivity | lia].
Qed.

Lemma index_bound (l : list string) (x : string) (i : nat) :
  index l x = Some i -> i < length l.
Proof.
  revert i. induction l as [|y l IH]; simpl; [discriminate|].
  intros i. destruct (String.eqb y x).
  - intros [= <-]. lia.
  - destruct (index l x) as [j|]; simpl; [|discriminate].
    intros [= <-]. specialize (IH j eq_refl). lia.
Qed.

Lemma dup_check_bodies_never_raises e c pairs :
  never_raises e (dup_check_bodies c pairs).
Proof.
  induction pairs as [|[n b] pairs IH]; intros h; simpl; [discriminate|].
  destruct (String.eqb b c); [discriminate | apply IH].
Qed.

Lemma dup_check_no_index_error iam name new_name cert names bodies dup_ok :
  length names <= length bodies ->
  never_raises IndexError
               (dup_check iam name new_name cert names bodies dup_ok).
Proof.
  intros Hl h. unfold dup_check.
  assert (Hn : forall l, fst (dup_check_names cert names bodies l h)
                         <> Raise IndexError).
  { induction l as [|[i_name|] l IH]; simpl; [discriminate| |exact IH].
    destruct cert as [c|]; [|discriminate].
    destruct (index names i_name) as [i|] eqn:Ei; [|discriminate].
    apply index_bound in Ei.
    destruct (nth_error bodies i) as [b|] eqn:En.
    - destruct (String.eqb (replace_cr b) (replace_cr c)); discriminate.
    - apply nth_error_None in En. lia. }
  destruct (py_in name names || py_in new_name names); [apply Hn|].
  destruct (py_in cert bodies && negb dup_ok); [|discriminate].
  destruct cert; [apply dup_check_bodies_never_raises | discriminate].
Qed.

(** X13.  [main] never ends in [IndexError]: the bodies it hands to
    [dup_check] are as many as the names, so the body looked up under the
    index of a name is always there. *)
Theorem main_never_index_error (env : environment) (p : params) (h : history) :
  fst (main env p h) <> Raise IndexError.
Proof.
  unfold main, bind.
  destruct (HAS_BOTO env); simpl; [|discriminate].
  destruct (connect_to_aws env) as [msg|iam]; simpl; [discriminate|].
  unfold remote at 1.
  destruct (get_all_server_certs iam h) as [msg|names]; simpl; [discriminate|].
  assert (Hi : forall msg, IndexError <> BotoServerError msg) by discriminate.
  pose proof (never_raises_comprehension
                IndexError (certificate_body_of iam) names
                (fun x => never_raises_certificate_body_of IndexError iam x Hi)
                (h ++ [GetAllServerCerts])) as Hc.
  destruct (comprehension (certificate_body_of iam) names
                          (h ++ [GetAllServerCerts])) as [[bodies| | |e] h2] eqn:E;
    simpl in *; try discriminate;
    [|intros [= ->]; now apply Hc].
  apply certificate_bodies_parallel in E. destruct E as [Hl _].
  assert (Hle : length names <= length bodies) by lia.
  unfold try_except_boto, bind.
  destruct (p_state p), (p_cert p), (p_key p); simpl; try discriminate;
    match goal with
    | |- context [cert_action ?a ?b ?c ?d ?e ?f ?g ?k ?i ?j ?l ?m ?n] =>
        pose proof (cert_action_raise_from_dup_check
                      IndexError a b c d e f g k i j l m n
                      ltac:(intros; discriminate)) as Ha;
        destruct (cert_action a b c d e f g k i j l m n) as [[u| | |[]] h3];
        simpl in *; try discriminate;
        destruct (Ha eq_refl) as [_ Hd];
        destruct (dup_check_no_index_error _ _ _ _ _ _ _ Hle _ Hd)
    end.
Qed.

Lemma dup_check_value_error iam name new_name cert names bodies dup_ok h :
  fst (dup_check iam name new_name cert names bodies dup_ok h) = Raise ValueError ->
  cert <> None
  /\ (exists n, name = Some n)
  /\ py_in name names = false
  /\ py_in new_name names = true.
Proof.
  unfold dup_check.
  destruct (py_in name names) eqn:E1; simpl orb.
  - destruct name as [n|]; [|discriminate].
    destruct (index_present names n E1) as [i [Hi _]].
    simpl. destruct cert as [c|]; [|discriminate].
    rewrite Hi. destruct (nth_error bodies i) as [b|]; [|discriminate].
    destruct (String.eqb (replace_cr b) (replace_cr c)); discriminate.
  - destruct (py_in new_name names) eqn:E2.
    + destruct name as [n|].
      * simpl. destruct cert as [c|]; [|discriminate].
        intros _. repeat split; [discriminate | now exists n].
      * destruct new_name as [nn|]; [|discriminate].
        destruct (index_present names nn E2) as [i [Hi _]].
        simpl. destruct cert as [c|]; [|discriminate].
        rewrite Hi. destruct (nth_error bodies i) as [b|]; [|discriminate].
        destruct (String.eqb (replace_cr b) (replace_cr c)); discriminate.
    + destruct (py_in cert bodies && negb dup_ok); [|discriminate].
      destruct cert as [c|]; [|discriminate].
      intros H. exfalso. revert H. apply dup_check_bodies_never_raises.
Qed.

(** X14.  [cert_action] ends in [ValueError] in one situation only:
    [state=present], a body is supplied, the name is set and is not in the
    inventory, and the new name is in the inventory. *)
Theorem value_error_only_for_taken_new_name
    iam (name new_name new_path cert key chain : option string) (cpath : string)
    (st : state) (names bodies : list string) (dup_ok : bool) (h : history) :
  fst (cert_action iam name cpath new_name new_path st cert key chain
                   names bodies dup_ok h) = Raise ValueError ->
  st = present
  /\ cert <> None
  /\ (exists n, name = Some n)
  /\ py_in name names = false
  /\ py_in new_name names = true.
Proof.
  intros H.
  destruct (cert_action_raise_from_dup_check
              ValueError iam name cpath new_name new_path st cert key chain
              names bodies dup_ok h ltac:(intros; discriminate) H) as [Hst Hd].
  split; [exact Hst | now apply (dup_check_value_error iam _ _ _ _ bodies dup_ok h)].
Qed.

(** *** What a result says *)

Lemma dup_check_no_exit iam name new_name cert names bodies dup_ok h kw :
  fst (dup_check iam name new_name cert names bodies dup_ok h) <> ExitJson kw.
Proof.
  unfold dup_check.
  assert (Hn : forall l, fst (dup_check_names cert names bodies l h)
                         <> ExitJson kw).
  { induction l as [|[i_name|] l IH]; simpl; [discriminate| |exact IH].
    destruct cert as [c|]; [|discriminate].
    destruct (index names i_name) as [i|]; [|discriminate].
    destruct (nth_error bodies i) as [b|]; [|discriminate].
    destruct (String.eqb (replace_cr b) (replace_cr c)); discriminate. }
  assert (Hb : forall c pairs, fst (dup_check_bodies c pairs h) <> ExitJson kw).
  { intros c pairs. induction pairs as [|[n b] pairs IH]; simpl; [discriminate|].
    destruct (String.eqb b c); [discriminate | exact IH]. }
  destruct (py_in name names || py_in new_name names); [apply Hn|].
  destruct (py_in cert bodies && negb dup_ok); [|discriminate].
  destruct cert; [apply Hb | discriminate].
Qed.

Lemma stays_cert_meta iam name : stays (cert_meta iam name).
Proof.
  unfold cert_meta, get_server_certificate_result.
  repeat (apply stays_bind; [apply stays_remote | intros ?]).
  apply stays_ret.
Qed.

(** One write, then the report, in a run that exited. *)
Ltac exited_after_write Hr :=
  unfold bind, remote;
  match goal with
  | |- context [update_server_cert ?i ?h ?a ?b ?c] =>
      destruct (update_server_cert i h a b c) as [?|[]]
  | |- context [delete_server_cert ?i ?h ?a] =>
      destruct (delete_server_cert i h a) as [?|[]]
  end;
  simpl; [discriminate|];
  intros [= <- <-]; exists true; split; [reflexivity|];
  rewrite mutations_app, length_app, ?Hr; simpl; lia.

Lemma cert_action_changed
    iam name cpath new_name new_path st cert key chain names bodies dup_ok
    h kw h' :
  cert_action iam name cpath new_name new_path st cert key chain
              names bodies dup_ok h = (ExitJson kw, h') ->
  exists b,
    kw_get "changed" kw = Some (VBool b)
    /\ length (filter mutating h')
       = length (filter mutating h) + (if b then 1 else 0).
Proof.
  unfold cert_action. destruct st.
  - unfold bind at 1.
    pose proof (dup_check_silent iam name new_name cert names bodies dup_ok h) as Hs.
    pose proof (fun kw0 =>
                  dup_check_no_exit iam name new_name cert names bodies dup_ok h kw0)
      as He.
    destruct (dup_check iam name new_name cert names bodies dup_ok h)
      as [[update| | |] h0]; simpl in Hs, He; subst h0; try discriminate.
    + destruct update.
      * unfold bind at 1.
        pose proof (cert_meta_reads iam name h) as Hr.
        pose proof (stays_cert_meta iam name h) as Hst.
        destruct (cert_meta iam name h)
          as [[[[[[opath ocert] ocert_id] upload_date] exp]| | |] h1];
          simpl in Hr, Hst; try contradiction; try discriminate.
        destruct (truthy new_name), (truthy new_path); simpl;
          try exited_after_write Hr.
        intros [= <- <-]. exists false. split; [reflexivity|]. rewrite Hr. lia.
      * unfold bind at 1, remote at 1.
        destruct (upload_server_cert iam h name cert key chain cpath) as [msg|[]];
          simpl; [discriminate|].
        unfold bind at 1.
        pose proof (cert_meta_reads
                      iam name
                      (h ++ [UploadServerCert name cert key chain cpath])) as Hr.
        pose proof (stays_cert_meta
                      iam name
                      (h ++ [UploadServerCert name cert key chain cpath])) as Hst.
        destruct (cert_meta iam name
                            (h ++ [UploadServerCert name cert key chain cpath]))
          as [[[[[[opath ocert] ocert_id] upload_date] exp]| | |] h1];
          simpl in Hr, Hst; try contradiction; try discriminate.
        intros [= <- <-]. exists true. split; [reflexivity|].
        rewrite Hr, mutations_app, length_app. simpl. lia.
    + intros _. now destruct (He _ eq_refl).
  - destruct (py_in name names).
    + exited_after_write I.
    + intros [= <- <-]. exists false. split; [reflexivity | lia].
Qed.

(** X15.  A result of [main] tells the truth about [changed]: when [main]
    exits with a result, the result has a [changed] entry, and it is [True]
    exactly when the run made a mutating call, one call, which the service
    accepted; with [changed=False] no mutating call was made. *)
Theorem changed_reported_truthfully
    (env : environment) (p : params) (h h' : history) (kw : kwargs) :
  main env p h = (ExitJson kw, h') ->
  exists b,
    kw_get "changed" kw = Some (VBool b)
    /\ length (filter mutating h')
       = length (filter mutating h) + (if b then 1 else 0).
Proof.
  unfold main, bind.
  destruct (HAS_BOTO env); simpl; [|discriminate].
  destruct (connect_to_aws env) as [msg|iam]; simpl; [discriminate|].
  unfold remote at 1.
  destruct (get_all_server_certs iam h) as [msg|names]; simpl; [discriminate|].
  pose proof (stays_certificate_bodies iam names (h ++ [GetAllServerCerts])) as Hs.
  pose proof (at_most_none (comprehension (certificate_body_of iam) names)
                           (h ++ [GetAllServerCerts])
                           (at_most_comprehension _ _
                              (at_most_certificate_body_of iam))) as Hf.
  rewrite mutations_app in Hf. simpl in Hf. rewrite app_nil_r in Hf.
  destruct (comprehension (certificate_body_of iam) names
                          (h ++ [GetAllServerCerts])) as [[bodies| | |e] h2];
    simpl in *; try contradiction; try discriminate.
  unfold try_except_boto, bind.
  destruct (p_state p), (p_cert p), (p_key p); simpl; try discriminate;
    match goal with
    | |- context [cert_action ?a ?b ?c ?d ?e ?f ?g ?k ?i ?j ?l ?m ?n] =>
        pose proof (cert_action_changed a b c d e f g k i j l m n) as Ha;
        destruct (cert_action a b c d e f g k i j l m n) as [[u| | |[]] h3];
        simpl; try discriminate;
        intros [= <- <-];
        destruct (Ha _ _ eq_refl) as [b0 [Hk Hm]];
        exists b0; split; [exact Hk | rewrite Hm, Hf; reflexivity]
    end.
Qed.

Lemma never_returns_bind {A B} (m : M A) (f : A -> M B) :
  (forall x, never_returns (f x)) -> never_returns (bind m f).
Proof.
  intros Hf h b. unfold bind.
  destruct (m h) as [[x| | |e] h1]; simpl; try discriminate. apply Hf.
Qed.

Lemma never_returns_exit_json {A} kw : never_returns (@exit_json A kw).
Proof. intros h a. discriminate. Qed.

Lemma never_returns_fail_json {A} kw : never_returns (@fail_json A kw).
Proof. intros h a. discriminate. Qed.

Lemma never_returns_try {A} (m : M A) (handler : string -> M A) :
  never_returns m -> (forall msg, never_returns (handler msg)) ->
  never_returns (try_except_boto m handler).
Proof.
  intros Hm Hh h a. unfold try_except_boto. specialize (Hm h).
  destruct (m h) as [[x| | |[msg| | |]] h1]; simpl in *; try discriminate.
  - now destruct (Hm x).
  - apply Hh.
Qed.

Lemma never_returns_cert_action
    iam name cpath new_name new_path st cert key chain names bodies dup_ok :
  never_returns (cert_action iam name cpath new_name new_path st cert key chain
                             names bodies dup_ok).
Proof.
  unfold cert_action. destruct st.
  - apply never_returns_bind. intros update. destruct update.
    + apply never_returns_bind.
      intros [[[[opath ocert] ocert_id] upload_date] exp].
      repeat match goal with
             | |- never_returns (if ?c then _ else _) => destruct c
             | |- never_returns (bind _ _) => apply never_returns_bind; intros ?
             end; apply never_returns_exit_json.
    + apply never_returns_bind. intros _. apply never_returns_bind.
      intros [[[[opath ocert] ocert_id] upload_date] exp].
      apply never_returns_exit_json.
  - destruct (py_in name names).
    + apply never_returns_bind. intros _. apply never_returns_exit_json.
    + apply never_returns_exit_json.
Qed.

(** X16.  [main] never runs off its end: every run leaves through
    [exit_json], through [fail_json] or with an exception, and so does every
    run of [cert_action]. *)
Theorem main_always_reports (env : environment) (p : params) :
  never_returns (main env p)
  /\ forall iam name cpath new_name new_path st cert key chain names bodies
            dup_ok,
       never_returns (cert_action iam name cpath new_name new_path st cert key
                                  chain names bodies dup_ok).
Proof.
  split; [|intros; apply never_returns_cert_action].
  unfold main.
  apply never_returns_bind. intros _.
  apply never_returns_bind. intros iam.
  apply never_returns_bind. intros orig_certs.
  apply never_returns_bind. intros orig_bodies.
  apply never_returns_try.
  - apply never_returns_bind. intros c. apply never_returns_bind. intros k.
    apply never_returns_cert_action.
  - intros msg. apply never_returns_bind. intros c.
    apply never_returns_bind. intros k. apply never_returns_fail_json.
Qed.

(** *** Carriage returns *)

Lemma replace_cr_app (a b : string) :
  replace_cr (a ++ b) = (replace_cr a ++ replace_cr b)%string.
Proof.
  induction a as [|c a IH]; simpl; [reflexivity|].
  destruct (Ascii.eqb c "013"); simpl; now rewrite IH.
Qed.

Lemma replace_cr_insert (a b : string) :
  replace_cr (a ++ CR ++ b) = replace_cr (a ++ b).
Proof. rewrite !replace_cr_app. reflexivity. Qed.

(** X17.  For a name that is in the inventory, the verdict of [dup_check]
    depends on the supplied body only up to its carriage returns: two bodies
    that are equal once these are removed get the same verdict, and so a
    carriage return put anywhere into the body changes nothing. *)
Theorem name_match_ignores_carriage_returns
    iam (n : string) (new_name : option string) (names bodies : list string)
    (dup_ok : bool) (h : history) :
  py_in (Some n) names = true ->
  (forall c1 c2,
     replace_cr c1 = replace_cr c2 ->
     dup_check iam (Some n) new_name (Some c1) names bodies dup_ok h
     = dup_check iam (Some n) new_name (Some c2) names bodies dup_ok h)
  /\ (forall a b : string,
        dup_check iam (Some n) new_name (Some (a ++ CR ++ b)%string) names bodies
                  dup_ok h
        = dup_check iam (Some n) new_name (Some (a ++ b)%string) names bodies
                    dup_ok h).
Proof.
  intros Hin.
  assert (H : forall c1 c2,
             replace_cr c1 = replace_cr c2 ->
             dup_check iam (Some n) new_name (Some c1) names bodies dup_ok h
             = dup_check iam (Some n) new_name (Some c2) names bodies dup_ok h).
  { intros c1 c2 Hc. unfold dup_check. rewrite Hin. simpl. rewrite Hc.
    reflexivity. }
  split; [exact H|]. intros a b. apply H, replace_cr_insert.
Qed.

(** X18.  The check for a body that is already stored compares the bodies
    as they are, carriage returns included: when no stored body has a
    carriage return and the supplied body has one, the run never reports a
    duplicate, however the body reads without its carriage returns.  With
    the name and the new name not in the inventory it uploads. *)
Theorem duplicate_check_keeps_carriage_returns
    iam (I : inventory) (name new_name new_path key chain : option string)
    (c cpath : string) (dup_ok : bool) (h : history) :
  py_in name (names_of I) = false ->
  py_in new_name (names_of I) = false ->
  Forall (fun b => replace_cr b = b) (bodies_of I) ->
  replace_cr c <> c ->
  dup_check iam name new_name (Some c) (names_of I) (bodies_of I) dup_ok h
  = (Ret false, h)
  /\ filter mutating
       (snd (cert_action iam name cpath new_name new_path present (Some c) key
                         chain (names_of I) (bodies_of I) dup_ok h))
     = filter mutating h ++ [UploadServerCert name (Some c) key chain cpath].
Proof.
  intros H1 H2 Hall Hc.
  assert (H3 : py_in (Some c) (bodies_of I) = false).
  { apply py_in_false. intros Hin.
    rewrite Forall_forall in Hall. now apply Hc, Hall. }
  pose proof (dup_check_fresh iam name new_name (Some c) _ _ dup_ok h H1 H2 H3)
    as Hd.
  split; [exact Hd|].
  unfold cert_action, bind. rewrite Hd. unfold remote.
  set (upload := UploadServerCert name (Some c) key chain cpath).
  pose proof (cert_meta_reads iam name (h ++ [upload])) as Hr.
  rewrite mutations_app in Hr. simpl in Hr.
  destruct (upload_server_cert iam h name (Some c) key chain cpath) as [msg|[]].
  - simpl. rewrite mutations_app. reflexivity.
  - destruct (cert_meta iam name (h ++ [upload]))
      as [[[[[[opath ocert] oid] ud] ex]| | |] h']; exact Hr.
Qed.

(** *** A refused delete *)

(** X19.  On a [state=absent] run, once the set-up and the inventory fetch
    have succeeded and the name is listed, a delete that the service refuses
    makes [main] call [fail_json] with [changed=False], the text of the
    error, and a [debug] entry that holds [None] twice, whatever body and
    key the parameters hold.  This is about the keyword arguments that
    [main] hands over, not about what [AnsibleModule] adds to them. *)
Theorem absent_delete_refused
    (env : environment) iam (p : params) (msg : string)
    (names bodies : list string) (h h1 h2 : history) :
  HAS_BOTO env = true ->
  connect_to_aws env = inr iam ->
  p_state p = absent ->
  remote GetAllServerCerts (get_all_server_certs iam) h = (Ret names, h1) ->
  comprehension (certificate_body_of iam) names h1 = (Ret bodies, h2) ->
  py_in (p_name p) names = true ->
  delete_server_cert iam h2 (p_name p) = inl msg ->
  main env p h
  = (FailJson [("changed", VBool false); ("msg", VStr msg);
               ("debug", VList [VNone; VNone])],
     h2 ++ [DeleteServerCert (p_name p)]).
Proof.
  intros Hb Hi Hst Hl Hf Hin Hd.
  unfold main, bind. rewrite Hb, Hi, Hst. simpl. rewrite Hl, Hf.
  unfold try_except_boto, cert_action, bind, remote. simpl.
  rewrite Hin, Hd. reflexivity.
Qed.

(** *** The further properties at concrete inputs *)

Lemma present_rename_only_witness :
  cert_action (simulated true alpha_entries) (Some "alpha") "/" (Some "beta")
              (Some "") present (Some "BODY1") (Some "K") None
              ["alpha"] ["BODY1"] false []
  = (ExitJson
       [("changed", VBool true); ("original_name", VStr "alpha");
        ("new_name", VStr "beta"); ("cert_path", VStr "/");
        ("cert_body", VStr "BODY1");
        ("upload_date", VStr "2016-05-01T00:00:00Z");
        ("expiration_date", VStr "2026-05-01T00:00:00Z")],
     [GetServerCertificate (Some "alpha"); GetServerCertificate (Some "alpha");
      GetServerCertificate (Some "alpha"); GetServerCertificate (Some "alpha");
      GetServerCertificate (Some "alpha");
      UpdateServerCert (Some "alpha") (Some "beta") None]).
Proof.
  assert (Hnn : "beta" <> "") by discriminate.
  exact (proj1 (present_rename_only
                  (simulated true alpha_entries) (Some "alpha") (Some "")
                  (Some "BODY1") (Some "K") None "beta" "/" ["alpha"] ["BODY1"]
                  false [] eq_refl Hnn eq_refl "/" "BODY1" "ASCA1"
                  "2016-05-01T00:00:00Z" "2026-05-01T00:00:00Z" _
                  eq_refl eq_refl)).
Defined.

Lemma present_move_only_witness :
  cert_action (simulated true alpha_entries) (Some "alpha") "/" (Some "")
              (Some "/new/") present (Some "BODY1") (Some "K") None
              ["alpha"] ["BODY1"] false []
  = (ExitJson
       [("changed", VBool true); ("name", VStr "");
        ("original_path", VStr "/"); ("new_path", VStr "/new/");
        ("cert_body", VStr "BODY1");
        ("upload_date", VStr "2016-05-01T00:00:00Z");
        ("expiration_date", VStr "2026-05-01T00:00:00Z")],
     [GetServerCertificate (Some "alpha"); GetServerCertificate (Some "alpha");
      GetServerCertificate (Some "alpha"); GetServerCertificate (Some "alpha");
      GetServerCertificate (Some "alpha");
      UpdateServerCert (Some "alpha") None (Some "/new/")]).
Proof.
  assert (Hnp : "/new/" <> "") by discriminate.
  exact (proj1 (present_move_only
                  (simulated true alpha_entries) (Some "alpha") (Some "")
                  (Some "BODY1") (Some "K") None "/new/" "/" ["alpha"] ["BODY1"]
                  false [] eq_refl eq_refl Hnp "/" "BODY1" "ASCA1"
                  "2016-05-01T00:00:00Z" "2026-05-01T00:00:00Z" _
                  eq_refl eq_refl)).
Defined.

Lemma present_update_nothing_to_do_witness :
  cert_action (simulated true alpha_entries) (Some "alpha") "/" (Some "")
              (Some "") present (Some "BODY1") (Some "K") None
              ["alpha"] ["BODY1"] false []
  = (ExitJson
       [("changed", VBool false); ("name", VStr "alpha");
        ("cert_path", VStr "/"); ("cert_body", VStr "BODY1");
        ("upload_date", VStr "2016-05-01T00:00:00Z");
        ("expiration_date", VStr "2026-05-01T00:00:00Z");
        ("msg", VStr "No new path or name specified. No changes made")],
     [GetServerCertificate (Some "alpha"); GetServerCertificate (Some "alpha");
      GetServerCertificate (Some "alpha"); GetServerCertificate (Some "alpha");
      GetServerCertificate (Some "alpha")]).
Proof.
  exact (proj2 (present_update_nothing_to_do
                  (simulated true alpha_entries) (Some "alpha") (Some "")
                  (Some "") (Some "BODY1") (Some "K") None "/" ["alpha"]
                  ["BODY1"] false [] eq_refl eq_refl eq_refl)
               "/" "BODY1" "ASCA1" "2016-05-01T00:00:00Z"
               "2026-05-01T00:00:00Z" _ eq_refl).
Defined.

(** [alpha] is uploaded with the body that [beta] already holds. *)
Lemma present_duplicate_allowed_witness :
  cert_action (simulated true beta_entries) (Some "alpha") "/" None None present
              (Some "B") (Some "K") None ["beta"] ["B"] true []
  = (ExitJson [("changed", VBool true); ("name", VStr "alpha");
               ("cert_path", VStr "/"); ("cert_body", VStr "B");
               ("upload_date", VStr "2017-01-01T00:00:00Z");
               ("expiration_date", VStr "2027-01-01T00:00:00Z")],
     [UploadServerCert (Some "alpha") (Some "B") (Some "K") None "/";
      GetServerCertificate (Some "alpha"); GetServerCertificate (Some "alpha");
      GetServerCertificate (Some "alpha"); GetServerCertificate (Some "alpha");
      GetServerCertificate (Some "alpha")]).
Proof.
  exact (proj2 (present_duplicate_allowed
                  (simulated true beta_entries) [("beta", "B")] (Some "alpha")
                  None None (Some "B") (Some "K") None "/" [] eq_refl eq_refl)
               "/" "B" "ASCAEXAMPLE" "2017-01-01T00:00:00Z"
               "2027-01-01T00:00:00Z" _ eq_refl eq_refl).
Defined.

Lemma present_upload_then_fetch_refused_witness :
  cert_action (unreadable (inr [])) (Some "cert1") "/" None None present
              (Some "X") (Some "K") None [] [] false []
  = (Raise (BotoServerError "ServiceFailure"),
     [UploadServerCert (Some "cert1") (Some "X") (Some "K") None "/";
      GetServerCertificate (Some "cert1")]).
Proof.
  exact (present_upload_then_fetch_refused
           (unreadable (inr [])) [] (Some "cert1") None None (Some "X")
           (Some "K") None "/" "ServiceFailure" false []
           eq_refl eq_refl eq_refl eq_refl eq_refl).
Defined.

Lemma main_rename_to_current_witness :
  let env := mk_environment true (inr (simulated true alpha_entries)) in
  main env
       (mk_params present (Some "alpha") (Some "BODY1") (Some "K") None
                  (Some "alpha") "/" (Some "/") false) []
  = main env
         (mk_params present (Some "alpha") (Some "BODY1") (Some "K") None
                    None "/" None false) [].
Proof.
  intros env.
  rewrite (proj1 (main_rename_to_current
                    env
                    (mk_params present (Some "alpha") (Some "BODY1") (Some "K")
                               None (Some "alpha") "/" (Some "/") false) [])
                 eq_refl).
  exact (proj2 (main_rename_to_current
                  env
                  (mk_params present (Some "alpha") (Some "BODY1") (Some "K")
                             None None "/" (Some "/") false) [])
               eq_refl).
Defined.

Lemma present_without_key_unbound_witness :
  main (mk_environment true (inr (simulated true alpha_entries)))
       (mk_params present (Some "alpha") (Some "BODY1") None None (Some "beta")
                  "/" None false) []
  = (Raise (UnboundLocalError "key"),
     [GetAllServerCerts; GetServerCertificate (Some "alpha")]).
Proof.
  apply (proj2 (proj2
           (present_without_key_unbound
              (mk_environment true (inr (simulated true alpha_entries)))
              (mk_params present (Some "alpha") (Some "BODY1") None None
                         (Some "beta") "/" None false) "BODY1" []
              eq_refl eq_refl eq_refl))
           (simulated true alpha_entries) ["alpha"] ["BODY1"]
           [GetAllServerCerts]
           [GetAllServerCerts; GetServerCertificate (Some "alpha")]);
    reflexivity.
Defined.

Lemma absent_depends_on_name_only_witness :
  let env := mk_environment true (inr (simulated true alpha_entries)) in
  main env
       (mk_params absent (Some "alpha") (Some "BODY1") (Some "K") (Some "CHAIN")
                  (Some "beta") "/old/" (Some "/new/") true) []
  = main env (mk_params absent (Some "alpha") None None None None "/" None false)
         [].
Proof.
  intros env.
  exact (absent_depends_on_name_only
           env
           (mk_params absent (Some "alpha") (Some "BODY1") (Some "K")
                      (Some "CHAIN") (Some "beta") "/old/" (Some "/new/") true)
           (mk_params absent (Some "alpha") None None None None "/" None false)
           [] eq_refl eq_refl eq_refl).
Defined.

Lemma main_setup_failures_witness :
  let p := mk_params present (Some "cert1") (Some "X") (Some "K") None None "/"
                     None false in
  main (mk_environment false (inr (simulated true []))) p []
  = (FailJson [("msg", VStr "Boto is required for this module")], [])
  /\ main (mk_environment true (inl "No handler was ready to authenticate")) p []
     = (FailJson [("msg", VStr "No handler was ready to authenticate")], []).
Proof.
  intros p. split.
  - exact (proj1 (main_setup_failures
                    (mk_environment false (inr (simulated true []))) p [])
                 eq_refl).
  - exact (proj2 (main_setup_failures
                    (mk_environment
                       true (inl "No handler was ready to authenticate")) p [])
                 "No handler was ready to authenticate" eq_refl eq_refl).
Defined.

Lemma main_inventory_error_uncaught_witness :
  let p := mk_params present (Some "cert1") (Some "X") (Some "K") None None "/"
                     None false in
  main (mk_environment true (inr (unreadable (inl "Throttling")))) p []
  = (Raise (BotoServerError "Throttling"), [GetAllServerCerts])
  /\ main (mk_environment true (inr (unreadable (inr ["alpha"])))) p []
     = (Raise (BotoServerError "ServiceFailure"),
        [GetAllServerCerts; GetServerCertificate (Some "alpha")]).
Proof.
  intros p. split.
  - exact (proj1 (main_inventory_error_uncaught
                    (mk_environment true (inr (unreadable (inl "Throttling"))))
                    (unreadable (inl "Throttling")) p [] eq_refl eq_refl)
                 "Throttling" eq_refl).
  - exact (proj1 (proj2 (main_inventory_error_uncaught
                           (mk_environment
                              true (inr (unreadable (inr ["alpha"]))))
                           (unreadable (inr ["alpha"])) p [] eq_refl eq_refl)
                        ["alpha"] "ServiceFailure"
                        [GetAllServerCerts; GetServerCertificate (Some "alpha")]
                        eq_refl eq_refl)).
Defined.

Lemma inventory_fetch_parallel_witness :
  length ["BODY1"] = length ["alpha"]
  /\ [GetAllServerCerts; GetServerCertificate (Some "alpha")]
     = [GetAllServerCerts] ++ map fetch_of ["alpha"].
Proof.
  destruct (inventory_fetch_parallel
              (simulated true alpha_entries) ["alpha"] ["BODY1"]
              [GetAllServerCerts]
              [GetAllServerCerts; GetServerCertificate (Some "alpha")] eq_refl)
    as [Hl [Hh _]].
  split; [exact Hl | exact Hh].
Defined.

Lemma value_error_only_for_taken_new_name_witness :
  present = present
  /\ Some "B" <> None
  /\ (exists n, Some "alpha" = Some n)
  /\ py_in (Some "alpha") ["beta"] = false
  /\ py_in (Some "beta") ["beta"] = true.
Proof.
  exact (value_error_only_for_taken_new_name
           (simulated true beta_entries) (Some "alpha") (Some "beta") None
           (Some "B") (Some "K") None "/" present ["beta"] ["B"] false []
           eq_refl).
Defined.

Lemma changed_reported_truthfully_witness :
  exists b,
    kw_get "changed"
           [("changed", VBool true); ("name", VStr "cert1");
            ("cert_path", VStr "/"); ("cert_body", VStr "X");
            ("upload_date", VStr "2017-01-01T00:00:00Z");
            ("expiration_date", VStr "2027-01-01T00:00:00Z")]
    = Some (VBool b)
    /\ length (filter mutating
                 [GetAllServerCerts;
                  UploadServerCert (Some "cert1") (Some "X") (Some "K") None "/";
                  GetServerCertificate (Some "cert1");
                  GetServerCertificate (Some "cert1");
                  GetServerCertificate (Some "cert1");
                  GetServerCertificate (Some "cert1");
                  GetServerCertificate (Some "cert1")])
       = length (filter mutating []) + (if b then 1 else 0).
Proof.
  exact (changed_reported_truthfully
           (mk_environment true (inr (simulated true [])))
           (mk_params present (Some "cert1") (Some "X") (Some "K") None None "/"
                      None false)
           [] _ _ eq_refl).
Defined.

(** The stored body has CR LF line ends, the two supplied ones LF line ends
    and a stray carriage return. *)
Lemma name_match_ignores_carriage_returns_witness :
  dup_check (simulated true crlf_entries) (Some "alpha") None
            (Some ("LINE1" ++ CR ++ body_lf)%string) ["alpha"] [body_crlf] false []
  = dup_check (simulated true crlf_entries) (Some "alpha") None
              (Some ("LINE1" ++ body_lf)%string) ["alpha"] [body_crlf] false [].
Proof.
  exact (proj2 (name_match_ignores_carriage_returns
                  (simulated true crlf_entries) "alpha" None ["alpha"]
                  [body_crlf] false [] eq_refl)
               "LINE1" body_lf).
Defined.

(** [beta] holds the two lines with LF line ends; the same two lines with
    CR LF line ends are uploaded as [alpha]. *)
Lemma duplicate_check_keeps_carriage_returns_witness :
  dup_check (simulated true []) (Some "alpha") None (Some body_crlf)
            ["beta"] [body_lf] false []
  = (Ret false, [])
  /\ filter mutating
       (snd (cert_action (simulated true []) (Some "alpha") "/" None None present
                         (Some body_crlf) (Some "K") None ["beta"] [body_lf]
                         false []))
     = [UploadServerCert (Some "alpha") (Some body_crlf) (Some "K") None "/"].
Proof.
  assert (Hc : replace_cr body_crlf <> body_crlf) by discriminate.
  exact (duplicate_check_keeps_carriage_returns
           (simulated true []) [("beta", body_lf)] (Some "alpha") None None
           (Some "K") None body_crlf "/" false [] eq_refl eq_refl
           (Forall_cons body_lf eq_refl (Forall_nil _)) Hc).
Defined.

(** The body and the key are supplied, the delete is refused, and the
    [debug] entry handed over holds neither. *)
Lemma absent_delete_refused_witness :
  main (mk_environment true (inr (simulated false alpha_entries)))
       (mk_params absent (Some "alpha") (Some "BODY1") (Some "K") None None "/"
                  None false) []
  = (FailJson [("changed", VBool false); ("msg", VStr "AccessDenied");
               ("debug", VList [VNone; VNone])],
     [GetAllServerCerts; GetServerCertificate (Some "alpha");
      DeleteServerCert (Some "alpha")]).
Proof.
  exact (absent_delete_refused
           (mk_environment true (inr (simulated false alpha_entries)))
           (simulated false alpha_entries)
           (mk_params absent (Some "alpha") (Some "BODY1") (Some "K") None None
                      "/" None false)
           "AccessDenied" ["alpha"] ["BODY1"] [] [GetAllServerCerts]
           [GetAllServerCerts; GetServerCertificate (Some "alpha")]
           eq_refl eq_refl eq_refl eq_refl eq_refl eq_refl eq_refl).
Defined.

(** ** The reported failure *)








